(** * PIA backend: ownership-scoped resources and the credential lifecycle

    A shallow embedding of the Express route handlers of the personal
    income/expense backend (routes/auth.js, routes/income.js,
    routes/expense.js), of the Mongoose schemas they persist through
    (models/Income.js, models/Expense.js) and of the wiring in server.js.

    Collections are finite maps from [_id] to stored documents, a handler is
    a computation in a state-and-exception monad over its collection, and the
    [try { ... } catch (error) { ... }] around every handler body turns a
    thrown error into the response the source sends for it. *)

From Stdlib Require Import Ascii.
From stdpp Require Import base option list gmap strings sorting pretty.

Open Scope Z_scope.

(** ** Platform collaborators

    What the handlers call but the repository does not define: ECMAScript's
    [JSON.parse], Mongoose's casts of raw values to schema types, the text of
    an error's [message], and bcrypt. *)

(** An ObjectId, and a Date as milliseconds since the epoch. *)
Abbreviation ObjectId := N (only parsing).
Abbreviation Date := Z (only parsing).

#[local] Set Warnings "-register-all,-clear-no-such-hyp".

Inductive JSONValue (num : Type) : Type :=
  | JNull
  | JBool (b : bool)
  | JNumber (n : num)
  | JString (s : string)
  | JArray (l : list (JSONValue num))
  | JObject (fields : list (string * JSONValue num)).
Arguments JNull {num}.
Arguments JBool {num} b.
Arguments JNumber {num} n.
Arguments JString {num} s.
Arguments JArray {num} l.
Arguments JObject {num} fields.

(** Why a validator rejected a path of a document. *)
Inductive ValidatorKind := Required | CastFailed (type : string).

(** The errors that reach a handler's [catch]: of [JSON.parse], of reading
    a property of [undefined], of Mongoose's validation before a save and of
    its cast of a query's filter, and a plain [new Error(text)]. *)
Inductive Error :=
  | SyntaxError (text : string)
  | TypeError_undefined (property : string)
  | ValidationError (model : string) (errors : list (string * ValidatorKind))
  | CastError (type value path_ model : string)
  | Error_new (text : string).

Class Runtime := {
  (** a JavaScript number *)
  number : Type;
  (** [JSON.parse(text)]; [None] when it throws a SyntaxError *)
  JSON_parse : string → option (JSONValue number);
  (** Mongoose's cast of a value other than null to a Number path;
      [None] is a CastError, [Some None] the null that the empty string
      casts to *)
  SchemaNumber_cast : JSONValue number → option (option number);
  (** Mongoose's cast of a value other than null to a String path *)
  SchemaString_cast : JSONValue number → option string;
  (** Mongoose's cast of an element other than null of an array of
      subdocuments: [Some (Some fields)] the raw fields the subdocument is
      constructed from, [Some None] an element the cast leaves as it is,
      [None] a CastError *)
  Subdocument_cast :
    JSONValue number → option (option (list (string * JSONValue number)));
  (** Mongoose's cast of the text of an [_id] in a query's filter to an
      ObjectId; [None] is a CastError *)
  ObjectId_cast : string → option ObjectId;
  (** [error.message] *)
  error_message : Error → string;
  (** [bcrypt.hash(password, salt)] and [bcrypt.compare(password, hash)] *)
  bcrypt_hash : string → string → string;
  bcrypt_compare : string → string → bool;
}.

(** What the handlers rely on of bcrypt: a password matches the hashes made
    from it, and a hash is a text of 60 characters (the version, the cost,
    the salt and the digest).  Nothing is assumed of a password compared
    with a hash made from another one: bcrypt reads only the first 72 bytes
    of a password. *)
Class BcryptLaws `{Runtime} : Prop := {
  bcrypt_compare_hash pw salt :
    bcrypt_compare pw (bcrypt_hash pw salt) = true;
  bcrypt_hash_length pw salt :
    String.length (bcrypt_hash pw salt) = 60%nat;
}.

(** ** Asynchronous handler bodies: state and exceptions *)

Inductive outcome (A : Type) : Type :=
  | Returned (a : A)
  | Thrown (e : Error).
Arguments Returned {A} a.
Arguments Thrown {A} e.

Definition Async (S A : Type) : Type := S → outcome A * S.

Global Instance Async_ret {S} : MRet (Async S) :=
  λ A a s, (Returned a, s).
Global Instance Async_bind {S} : MBind (Async S) :=
  λ A B f m s,
    match m s with
    | (Returned a, s') => f a s'
    | (Thrown e, s') => (Thrown e, s')
    end.

Definition throw {S A} (e : Error) : Async S A := λ s, (Thrown e, s).
Definition get {S} : Async S S := λ s, (Returned s, s).
Definition put {S} (s' : S) : Async S unit := λ _, (Returned tt, s').
Definition settle {S A} (o : outcome A) : Async S A := λ s, (o, s).

(** ** Express: requests, responses, handlers *)

Record File := { path : string; filename : string }.

(** What the [auth] middleware stores in [req.user]: the decoded token. *)
Record AuthUser := { userId : ObjectId }.

(** [req.params] has type [P] ([unit] for a route without parameters, the
    text of [req.params.id] for a route on [/:id]), [req.body] type [B];
    [req.file] and [req.files] are what multer's [upload.single] and
    [upload.array] leave. *)
Record Request (P B : Type) := {
  user : option AuthUser;
  params : P;
  body : B;
  file : option File;
  files : option (list File);
}.
Arguments user {P B} _.
Arguments params {P B} _.
Arguments body {P B} _.
Arguments file {P B} _.
Arguments files {P B} _.

(** A request as Express hands it to the first function of a route: nothing
    has set [req.user] yet, and no upload middleware has run. *)
Definition express_request {P B} (p : P) (b : B) : Request P B :=
  {| user := None; params := p; body := b; file := None; files := None |}.

(** Modelled from the spec: middleware/auth.js is not among the sources.
    For a token that passes validation it "exposes the decoded [userId] to
    the downstream handler", which the handlers read as [req.user.userId];
    this is the request a handler behind [auth] is given for a caller whose
    token resolved to [uid]. *)
Definition authenticated_request {P B} (uid : ObjectId) (p : P) (b : B)
    (f : option File) (fs : option (list File)) : Request P B :=
  {| user := Some {| userId := uid |}; params := p; body := b;
     file := f; files := fs |}.

(** [req.user.userId]: reading a property of [undefined] throws. *)
Definition req_user_userId {P B} (req : Request P B) : outcome ObjectId :=
  match user req with
  | Some u => Returned (userId u)
  | None => Thrown (TypeError_undefined "userId")
  end.

(** What the process provides to a request: [process.env.JWT_SECRET],
    which is [None] when the variable is not set, the clock, and the salt
    [bcrypt.genSalt] draws. *)
Record Ambient := {
  JWT_SECRET : option string;
  Date_now : Date;
  genSalt : string;
}.

(** A signed token, symbolically: its claims and the key that signed it. *)
Record Token := {
  token_userId : ObjectId;
  token_iat : Z;
  token_exp : Z;
  token_key : string;
}.

(** [jwt.sign({ userId }, secret, { expiresIn: '1d' })]: without a
    callback it returns the token, or throws when the secret is undefined
    or the empty string. *)
Definition jwt_sign (uid : ObjectId) (secret : option string) (w : Ambient)
    : outcome Token :=
  match secret with
  | None | Some EmptyString =>
      Thrown (Error_new "secretOrPrivateKey must have a value")
  | Some key =>
      let iat := Date_now w `div` 1000 in
      Returned {| token_userId := uid; token_iat := iat;
                  token_exp := iat + 86400; token_key := key |}
  end.

(** The JSON a handler answers with: [{ message }], [{ token }], a document
    or an array of documents of the router's model. *)
Inductive Payload (D : Type) : Type :=
  | Message (text : string)
  | TokenOf (token : Token)
  | Document (d : ObjectId * D)
  | Documents (ds : list (ObjectId * D)).
Arguments Message {D} text.
Arguments TokenOf {D} token.
Arguments Document {D} d.
Arguments Documents {D} ds.

Record Response (D : Type) := { status : Z; payload : Payload D }.
Arguments status {D} _.
Arguments payload {D} _.

(** [res.status(code).json(payload)]; [res.json(payload)] is status 200. *)
Definition res_status_json {D} (code : Z) (p : Payload D) : Response D :=
  {| status := code; payload := p |}.
Definition res_json {D} (p : Payload D) : Response D := res_status_json 200 p.

(** [async (req, res) => { try { body } catch (error) {
      res.status(code).json({ message: error.message }) } }] *)
Definition try_catch `{Runtime} {S D} (code : Z) (body_ : Async S (Response D))
    : S → Response D * S :=
  λ s,
    match body_ s with
    | (Returned r, s') => (r, s')
    | (Thrown e, s') => (res_status_json code (Message (error_message e)), s')
    end.

(** ** Mongoose: casting, validators, queries by owner *)

(** The value of a path after the schema type's setter has cast what was
    assigned: null or undefined, a value of the type, or a cast failure that
    validation will report. *)
Inductive Cast (A : Type) : Type :=
  | Nullish
  | Value (a : A)
  | Invalid.
Arguments Nullish {A}.
Arguments Value {A} a.
Arguments Invalid {A}.

Section casting.
Context `{Runtime}.

Definition cast_Number (raw : option (JSONValue number)) : Cast number :=
  match raw with
  | None | Some JNull => Nullish
  | Some v =>
      match SchemaNumber_cast v with
      | Some (Some n) => Value n
      | Some None => Nullish
      | None => Invalid
      end
  end.

Definition cast_String (raw : option (JSONValue number)) : Cast string :=
  match raw with
  | None | Some JNull => Nullish
  | Some v =>
      match SchemaString_cast v with
      | Some s => Value s
      | None => Invalid
      end
  end.

(** [type: Number, required: true] *)
Definition required_Number (path_ : string) (c : Cast number)
    : list (string * ValidatorKind) :=
  match c with
  | Nullish => [(path_, Required)]
  | Invalid => [(path_, CastFailed "Number")]
  | Value _ => []
  end.

(** [type: String, required: true]: the required validator of a String path
    also rejects the empty string. *)
Definition required_String (path_ : string) (c : Cast string)
    : list (string * ValidatorKind) :=
  match c with
  | Nullish => [(path_, Required)]
  | Invalid => [(path_, CastFailed "String")]
  | Value s => if decide (s = EmptyString) then [(path_, Required)] else []
  end.

(** A property of a parsed object. *)
Definition property (key : string) (fields : list (string * JSONValue number))
    : option (JSONValue number) :=
  (λ found, found.2.2) <$> list_find (λ kv, kv.1 = key) fields.

(** [JSON.parse(v)] for a form field that may be absent: [undefined] is
    converted to the text "undefined", which is not JSON. *)
Definition JSON_parse_value (v : option string) : outcome (JSONValue number) :=
  match v with
  | None => Thrown (SyntaxError "undefined")
  | Some text =>
      match JSON_parse text with
      | Some j => Returned j
      | None => Thrown (SyntaxError text)
      end
  end.

End casting.

(** Queries that filter on [_id] and [createdBy]: the filter is cast to
    the schema first, and an [_id] that is not the text of an ObjectId makes
    the query throw. *)
Section queries_by_id.
Context `{Runtime} {D : Type} (model : string) (createdBy : D → ObjectId).

(** The stored document with this [_id], if [uid] created it. *)
Definition owned (db : gmap N D) (id uid : ObjectId) : option D :=
  d ← db !! id; if decide (createdBy d = uid) then Some d else None.

(** The cast of [{ _id: id }] *)
Definition cast_id (id : string) : Async (gmap N D) ObjectId :=
  match ObjectId_cast id with
  | Some id => mret id
  | None => throw (CastError "ObjectId" id "_id" model)
  end.

(** [Model.findOne({ _id: id, createdBy: uid })] *)
Definition Model_findOne (id : string) (uid : ObjectId)
    : Async (gmap N D) (option (ObjectId * D)) :=
  id ← cast_id id;
  db ← get;
  mret (d ← db !! id; if decide (createdBy d = uid) then Some (id, d) else None).

(** [Model.findOneAndDelete({ _id: id, createdBy: uid })] *)
Definition Model_findOneAndDelete (id : string) (uid : ObjectId)
    : Async (gmap N D) (option (ObjectId * D)) :=
  id ← cast_id id;
  db ← get;
  match db !! id with
  | Some d =>
      if decide (createdBy d = uid) then
        _ ← put (delete id db);
        mret (Some (id, d))
      else mret None
  | None => mret None
  end.

End queries_by_id.

(** Queries that filter on [createdBy] alone, for any model with that path
    and timestamps. *)
Section queries.
Context {D : Type} (createdBy : D → ObjectId) (createdAt : D → Date).

(** [.sort({ createdAt: -1 })] *)
Definition newest_first (a b : ObjectId * D) : Prop :=
  createdAt b.2 ≤ createdAt a.2.
Global Instance newest_first_dec a b : Decision (newest_first a b) :=
  decide (createdAt b.2 ≤ createdAt a.2).

(** [Model.find({ createdBy: uid }).sort({ createdAt: -1 })] *)
Definition Model_find_sort (uid : ObjectId)
    : Async (gmap N D) (list (ObjectId * D)) :=
  db ← get;
  mret (merge_sort newest_first
          (filter (λ d, createdBy d.2 = uid) (map_to_list db))).

End queries.

(** ** The User model *)

Module User.

(** Modelled from the spec: models/User.js is not among the sources.
    A user is "{ id, username (unique), passwordHash }"; the identifier is
    the key under which a user is stored, and the handlers read and assign
    the credential as [user.password]. *)
Record t := { username : string; password : string }.

Section model.
Context `{Runtime}.

(** [User.findOne({ username })] *)
Definition findOne (name : string)
    : Async (gmap N t) (option (ObjectId * t)) :=
  db ← get;
  mret (snd <$> list_find (λ d, username d.2 = name) (map_to_list db)).

(** [User.findById(id)] *)
Definition findById (id : ObjectId)
    : Async (gmap N t) (option (ObjectId * t)) :=
  db ← get;
  mret (pair id <$> db !! id).

(** [new User({ username, password })]: the document receives an [_id]
    that no stored document has. *)
Definition new (u : t) : Async (gmap N t) (ObjectId * t) :=
  db ← get;
  mret (fresh (dom db), u).

(** Modelled from the spec: models/User.js is not among the sources.
    Its save middleware (the comment in routes/auth.js says the password
    "Will be hashed by the User model middleware") stores "a one-way
    salted hash of [password], never the raw value", and on a password
    change "replaces the stored hash with a hash of [newPassword]". *)
Definition pre_save (w : Ambient) (u : t) : t :=
  {| username := username u;
     password := bcrypt_hash (password u) (genSalt w) |}.

(** [user.save()] *)
Definition save (w : Ambient) (d : ObjectId * t) : Async (gmap N t) unit :=
  db ← get;
  put (<[d.1 := pre_save w d.2]> db).

End model.

End User.

(** ** models/Income.js *)

Module Income.

Section model.
Context `{Runtime}.

(** A stored document: the schema's paths and the timestamps. *)
Record t := {
  amount : number;
  slip : option File;
  notes : option string;
  createdBy : ObjectId;
  createdAt : Date;
  updatedAt : Date;
}.

(** A document in memory, between construction or lookup and [save()]. *)
Record Doc := {
  _id : ObjectId;
  doc_amount : Cast number;
  doc_slip : option File;
  doc_notes : option string;
  doc_createdBy : ObjectId;
  doc_createdAt : option Date;
}.

(** [new Income({ amount, notes, createdBy, slip })] *)
Definition new (amount_ : option string) (notes_ : option string)
    (createdBy_ : ObjectId) (slip_ : option File) : Async (gmap N t) Doc :=
  db ← get;
  mret {| _id := fresh (dom db);
          doc_amount := cast_Number (JString <$> amount_);
          doc_slip := slip_; doc_notes := notes_;
          doc_createdBy := createdBy_; doc_createdAt := None |}.

(** The document a query returned, as the handler then assigns to it. *)
Definition hydrate (d : ObjectId * t) : Doc :=
  {| _id := d.1; doc_amount := Value (amount d.2); doc_slip := slip d.2;
     doc_notes := notes d.2; doc_createdBy := createdBy d.2;
     doc_createdAt := Some (createdAt d.2) |}.

(** [income.amount = v], [income.notes = v], [income.slip = v] *)
Definition set_amount (v : option string) (d : Doc) : Doc :=
  {| _id := _id d; doc_amount := cast_Number (JString <$> v);
     doc_slip := doc_slip d; doc_notes := doc_notes d;
     doc_createdBy := doc_createdBy d; doc_createdAt := doc_createdAt d |}.
Definition set_notes (v : option string) (d : Doc) : Doc :=
  {| _id := _id d; doc_amount := doc_amount d;
     doc_slip := doc_slip d; doc_notes := v;
     doc_createdBy := doc_createdBy d; doc_createdAt := doc_createdAt d |}.
Definition set_slip (v : File) (d : Doc) : Doc :=
  {| _id := _id d; doc_amount := doc_amount d;
     doc_slip := Some v; doc_notes := doc_notes d;
     doc_createdBy := doc_createdBy d; doc_createdAt := doc_createdAt d |}.

(** Validation against the schema: [amount] is a required Number;
    [createdBy], the other required path, is always set. *)
Definition validate (d : Doc) : list (string * ValidatorKind) :=
  required_Number "amount" (doc_amount d).

(** [income.save()]: validate, then insert or replace the stored document,
    stamping [createdAt] on insertion and [updatedAt] always. *)
Definition save (w : Ambient) (d : Doc) : Async (gmap N t) (ObjectId * t) :=
  match doc_amount d with
  | Value a =>
      db ← get;
      let stored :=
        {| amount := a; slip := doc_slip d; notes := doc_notes d;
           createdBy := doc_createdBy d;
           createdAt := default (Date_now w) (doc_createdAt d);
           updatedAt := Date_now w |} in
      _ ← put (<[_id d := stored]> db);
      mret (_id d, stored)
  | _ => throw (ValidationError "Income" (validate d))
  end.

End model.

End Income.

(** ** models/Expense.js *)

Module Expense.

Section model.
Context `{Runtime}.

Record Item := { description : string; amount : number }.

(** An element of [items]: a subdocument, or a value that the cast of the
    array left as it was. *)
Inductive Element (A : Type) : Type :=
  | Subdocument (a : A)
  | Uncast (v : JSONValue number).
Arguments Subdocument {A} a.
Arguments Uncast {A} v.

(** A stored document: the schema's paths and the timestamps; [items] is
    [None] when it is stored as null. *)
Record t := {
  items : option (list (Element Item));
  totalAmount : number;
  images : list File;
  notes : option string;
  createdBy : ObjectId;
  createdAt : Date;
  updatedAt : Date;
}.

(** A document in memory: every subdocument of [items] holds its two paths
    as cast; [doc_items] is [Invalid] when the assigned value did not cast
    to an array of subdocuments. *)
Record Doc := {
  _id : ObjectId;
  doc_items : Cast (list (Element (Cast string * Cast number)));
  doc_totalAmount : Cast number;
  doc_images : list File;
  doc_notes : option string;
  doc_createdBy : ObjectId;
  doc_createdAt : option Date;
}.

(** The cast of one element of the array: null is left as it is; of any
    other value a subdocument is constructed, whose [description] and
    [amount] are cast in turn. *)
Definition cast_element (v : JSONValue number)
    : option (Element (Cast string * Cast number)) :=
  match v with
  | JNull => Some (Uncast JNull)
  | v =>
      fields ← Subdocument_cast v;
      match fields with
      | Some fields =>
          Some (Subdocument (cast_String (property "description" fields),
                             cast_Number (property "amount" fields)))
      | None => Some (Uncast v)
      end
  end.

(** The setter of [items]: null stays null; an array is cast element by
    element, and a value that is not an array as the array of that one
    value. *)
Definition cast_items (v : JSONValue number)
    : Cast (list (Element (Cast string * Cast number))) :=
  match v with
  | JNull => Nullish
  | v =>
      match mapM cast_element (if v is JArray l then l else [v]) with
      | Some its => Value its
      | None => Invalid
      end
  end.

(** [new Expense({ items, totalAmount, notes, createdBy, images })] *)
Definition new (items_ : JSONValue number) (totalAmount_ : option string)
    (notes_ : option string) (createdBy_ : ObjectId) (images_ : list File)
    : Async (gmap N t) Doc :=
  db ← get;
  mret {| _id := fresh (dom db);
          doc_items := cast_items items_;
          doc_totalAmount := cast_Number (JString <$> totalAmount_);
          doc_images := images_; doc_notes := notes_;
          doc_createdBy := createdBy_; doc_createdAt := None |}.

(** The document a query returned, as the handler then assigns to it. *)
Definition hydrate_element (el : Element Item)
    : Element (Cast string * Cast number) :=
  match el with
  | Subdocument it => Subdocument (Value (description it), Value (amount it))
  | Uncast v => Uncast v
  end.

Definition hydrate (d : ObjectId * t) : Doc :=
  {| _id := d.1;
     doc_items :=
       match items d.2 with
       | Some its => Value (map hydrate_element its)
       | None => Nullish
       end;
     doc_totalAmount := Value (totalAmount d.2);
     doc_images := images d.2; doc_notes := notes d.2;
     doc_createdBy := createdBy d.2;
     doc_createdAt := Some (createdAt d.2) |}.

(** [expense.items = v], [expense.totalAmount = v], [expense.notes = v],
    [expense.images = v] *)
Definition set_items (v : JSONValue number) (d : Doc) : Doc :=
  {| _id := _id d; doc_items := cast_items v;
     doc_totalAmount := doc_totalAmount d; doc_images := doc_images d;
     doc_notes := doc_notes d; doc_createdBy := doc_createdBy d;
     doc_createdAt := doc_createdAt d |}.
Definition set_totalAmount (v : option string) (d : Doc) : Doc :=
  {| _id := _id d; doc_items := doc_items d;
     doc_totalAmount := cast_Number (JString <$> v);
     doc_images := doc_images d;
     doc_notes := doc_notes d; doc_createdBy := doc_createdBy d;
     doc_createdAt := doc_createdAt d |}.
Definition set_notes (v : option string) (d : Doc) : Doc :=
  {| _id := _id d; doc_items := doc_items d;
     doc_totalAmount := doc_totalAmount d; doc_images := doc_images d;
     doc_notes := v; doc_createdBy := doc_createdBy d;
     doc_createdAt := doc_createdAt d |}.
Definition set_images (v : list File) (d : Doc) : Doc :=
  {| _id := _id d; doc_items := doc_items d;
     doc_totalAmount := doc_totalAmount d; doc_images := v;
     doc_notes := doc_notes d; doc_createdBy := doc_createdBy d;
     doc_createdAt := doc_createdAt d |}.

(** Validation of one subdocument of [items]: both paths are required. *)
Definition validate_item (i : nat) (it : Cast string * Cast number)
    : list (string * ValidatorKind) :=
  required_String ("items." +:+ pretty i +:+ ".description") it.1
  ++ required_Number ("items." +:+ pretty i +:+ ".amount") it.2.

(** Validation of one element: one that is not a subdocument is skipped. *)
Definition validate_element (i : nat)
    (el : Element (Cast string * Cast number))
    : list (string * ValidatorKind) :=
  match el with
  | Subdocument it => validate_item i it
  | Uncast _ => []
  end.

(** Validation against the schema.  The [items] path itself carries no
    validator, neither [required] nor a minimum length, so that null and
    the empty array pass. *)
Definition validate (d : Doc) : list (string * ValidatorKind) :=
  match doc_items d with
  | Invalid => [("items", CastFailed "DocumentArray")]
  | Nullish => []
  | Value its => concat (imap validate_element its)
  end
  ++ required_Number "totalAmount" (doc_totalAmount d).

(** The values of a document that passed validation. *)
Definition item_value (it : Cast string * Cast number) : option Item :=
  match it with
  | (Value d, Value a) => Some {| description := d; amount := a |}
  | _ => None
  end.

Definition element_value (el : Element (Cast string * Cast number))
    : option (Element Item) :=
  match el with
  | Subdocument it => Subdocument <$> item_value it
  | Uncast v => Some (Uncast v)
  end.

Definition items_value (c : Cast (list (Element (Cast string * Cast number))))
    : option (option (list (Element Item))) :=
  match c with
  | Nullish => Some None
  | Value its => Some <$> mapM element_value its
  | Invalid => None
  end.

Definition values (w : Ambient) (d : Doc) : option t :=
  items_ ← items_value (doc_items d);
  match doc_totalAmount d with
  | Value total =>
      Some {| items := items_; totalAmount := total;
              images := doc_images d; notes := doc_notes d;
              createdBy := doc_createdBy d;
              createdAt := default (Date_now w) (doc_createdAt d);
              updatedAt := Date_now w |}
  | _ => None
  end.

(** [expense.save()]: validate, then insert or replace the stored document,
    stamping [createdAt] on insertion and [updatedAt] always. *)
Definition save (w : Ambient) (d : Doc) : Async (gmap N t) (ObjectId * t) :=
  match validate d, values w d with
  | [], Some stored =>
      db ← get;
      _ ← put (<[_id d := stored]> db);
      mret (_id d, stored)
  | errors, _ => throw (ValidationError "Expense" errors)
  end.

End model.

Arguments Subdocument {_ A} a.
Arguments Uncast {_ A} v.

End Expense.

(** ** routes/auth.js *)

Module AuthRouter.

(** [{ username, password }] and [{ currentPassword, newPassword }]: both
    documented as required strings. *)
Record Credentials := { username : string; password : string }.
Record PasswordChange := { currentPassword : string; newPassword : string }.

Section routes.
Context `{Runtime}.

(** [router.post('/create-first-user', ...)] *)
Definition post_create_first_user (w : Ambient)
    (req : Request unit Credentials)
    : gmap N User.t → Response User.t * gmap N User.t :=
  try_catch 500 (
    let username := username (body req) in
    let password := password (body req) in
    existingUser ← User.findOne username;
    if existingUser is Some _ then
      mret (res_status_json 400 (Message "User already exists"))
    else
      user ← User.new {| User.username := username;
                         User.password := password |};
      _ ← User.save w user;
      mret (res_status_json 201 (Message "User created successfully"))).

(** [router.post('/login', ...)] *)
Definition post_login (w : Ambient) (req : Request unit Credentials)
    : gmap N User.t → Response User.t * gmap N User.t :=
  try_catch 500 (
    let username := username (body req) in
    let password := password (body req) in
    user ← User.findOne username;
    match user with
    | None => mret (res_status_json 401 (Message "Invalid credentials"))
    | Some (_id, user) =>
        let isMatch := bcrypt_compare password (User.password user) in
        if negb isMatch then
          mret (res_status_json 401 (Message "Invalid credentials"))
        else
          token ← settle (jwt_sign _id (JWT_SECRET w) w);
          mret (res_json (TokenOf token))
    end).

(** [router.post('/change-password', ...)] *)
Definition post_change_password (w : Ambient)
    (req : Request unit PasswordChange)
    : gmap N User.t → Response User.t * gmap N User.t :=
  try_catch 500 (
    let currentPassword := currentPassword (body req) in
    let newPassword := newPassword (body req) in
    userId ← settle (req_user_userId req);
    user ← User.findById userId;
    match user with
    | None => mret (res_status_json 404 (Message "User not found"))
    | Some (_id, user) =>
        let isMatch := bcrypt_compare currentPassword (User.password user) in
        if negb isMatch then
          mret (res_status_json 401 (Message "Current password is incorrect"))
        else
          let user := {| User.username := User.username user;
                         User.password := newPassword |} in
          _ ← User.save w (_id, user);
          mret (res_json (Message "Password changed successfully"))
    end).

End routes.

End AuthRouter.

(** ** routes/income.js

    Every route of this router is registered behind the [auth] middleware
    (and the upload middleware where a slip may be sent); a handler is given
    the request those leave. *)

Module IncomeRouter.

(** The text fields of the multipart form. *)
Record Form := { amount : option string; notes : option string }.

Section routes.
Context `{Runtime}.

Abbreviation Incomes := (gmap N Income.t).

(** [{ path: file.path, filename: file.filename }] *)
Definition reference (f : File) : File :=
  {| path := path f; filename := filename f |}.

(** [router.post('/', auth, upload.single('slip'), ...)] *)
Definition post (w : Ambient) (req : Request unit Form)
    : Incomes → Response Income.t * Incomes :=
  try_catch 400 (
    createdBy ← settle (req_user_userId req);
    income ← Income.new (amount (body req)) (notes (body req)) createdBy
               (if file req is Some f then Some (reference f) else None);
    income ← Income.save w income;
    mret (res_status_json 201 (Document income))).

(** [router.get('/', auth, ...)] *)
Definition get_all (req : Request unit unit)
    : Incomes → Response Income.t * Incomes :=
  try_catch 500 (
    userId ← settle (req_user_userId req);
    incomes ← Model_find_sort Income.createdBy Income.createdAt userId;
    mret (res_json (Documents incomes))).

(** [router.get('/:id', auth, ...)] *)
Definition get_id (req : Request string unit)
    : Incomes → Response Income.t * Incomes :=
  try_catch 500 (
    userId ← settle (req_user_userId req);
    income ← Model_findOne "Income" Income.createdBy (params req) userId;
    match income with
    | None => mret (res_status_json 404 (Message "Income record not found"))
    | Some income => mret (res_json (Document income))
    end).

(** [router.put('/:id', auth, upload.single('slip'), ...)] *)
Definition put_id (w : Ambient) (req : Request string Form)
    : Incomes → Response Income.t * Incomes :=
  try_catch 400 (
    userId ← settle (req_user_userId req);
    income ← Model_findOne "Income" Income.createdBy (params req) userId;
    match income with
    | None => mret (res_status_json 404 (Message "Income record not found"))
    | Some income =>
        let income := Income.set_amount (amount (body req))
                        (Income.hydrate income) in
        let income := Income.set_notes (notes (body req)) income in
        let income :=
          if file req is Some f then Income.set_slip (reference f) income
          else income in
        income ← Income.save w income;
        mret (res_json (Document income))
    end).

(** [router.delete('/:id', auth, ...)] *)
Definition delete_id (req : Request string unit)
    : Incomes → Response Income.t * Incomes :=
  try_catch 500 (
    userId ← settle (req_user_userId req);
    income ← Model_findOneAndDelete "Income" Income.createdBy (params req)
                 userId;
    match income with
    | None => mret (res_status_json 404 (Message "Income record not found"))
    | Some _ =>
        mret (res_json (Message "Income record deleted successfully"))
    end).

End routes.

End IncomeRouter.

(** ** routes/expense.js

    As in routes/income.js, every route is registered behind [auth]. *)

Module ExpenseRouter.

(** The text fields of the multipart form; [items] is JSON text. *)
Record Form := {
  items : option string;
  totalAmount : option string;
  notes : option string;
}.

Section routes.
Context `{Runtime}.

Abbreviation Expenses := (gmap N Expense.t).

(** [file => ({ path: file.path, filename: file.filename })] *)
Definition reference (f : File) : File :=
  {| path := path f; filename := filename f |}.

(** [router.post('/', auth, upload.array('images'), ...)] *)
Definition post (w : Ambient) (req : Request unit Form)
    : Expenses → Response Expense.t * Expenses :=
  try_catch 400 (
    items ← settle (JSON_parse_value (items (body req)));
    createdBy ← settle (req_user_userId req);
    expense ← Expense.new items (totalAmount (body req)) (notes (body req))
                createdBy
                (if files req is Some fs then map reference fs else []);
    expense ← Expense.save w expense;
    mret (res_status_json 201 (Document expense))).

(** [router.get('/', auth, ...)] *)
Definition get_all (req : Request unit unit)
    : Expenses → Response Expense.t * Expenses :=
  try_catch 500 (
    userId ← settle (req_user_userId req);
    expenses ← Model_find_sort Expense.createdBy Expense.createdAt userId;
    mret (res_json (Documents expenses))).

(** [router.get('/:id', auth, ...)] *)
Definition get_id (req : Request string unit)
    : Expenses → Response Expense.t * Expenses :=
  try_catch 500 (
    userId ← settle (req_user_userId req);
    expense ← Model_findOne "Expense" Expense.createdBy (params req) userId;
    match expense with
    | None => mret (res_status_json 404 (Message "Expense not found"))
    | Some expense => mret (res_json (Document expense))
    end).

(** [router.put('/:id', auth, upload.array('images'), ...)] *)
Definition put_id (w : Ambient) (req : Request string Form)
    : Expenses → Response Expense.t * Expenses :=
  try_catch 400 (
    userId ← settle (req_user_userId req);
    expense ← Model_findOne "Expense" Expense.createdBy (params req) userId;
    match expense with
    | None => mret (res_status_json 404 (Message "Expense not found"))
    | Some expense =>
        items ← settle (JSON_parse_value (items (body req)));
        let expense := Expense.set_items items (Expense.hydrate expense) in
        let expense := Expense.set_totalAmount (totalAmount (body req))
                         expense in
        let expense := Expense.set_notes (notes (body req)) expense in
        let expense :=
          match files req with
          | Some ((_ :: _) as fs) =>
              Expense.set_images
                (Expense.doc_images expense ++ map reference fs) expense
          | _ => expense
          end in
        expense ← Expense.save w expense;
        mret (res_json (Document expense))
    end).

(** [router.delete('/:id', auth, ...)] *)
Definition delete_id (req : Request string unit)
    : Expenses → Response Expense.t * Expenses :=
  try_catch 500 (
    userId ← settle (req_user_userId req);
    expense ← Model_findOneAndDelete "Expense" Expense.createdBy (params req)
                 userId;
    match expense with
    | None => mret (res_status_json 404 (Message "Expense not found"))
    | Some _ => mret (res_json (Message "Expense deleted successfully"))
    end).

End routes.

End ExpenseRouter.

(** ** server.js: how the routers are mounted *)

Module Server.

Section app.
Context `{Runtime}.

(** [app.use('/api/auth', authRoutes)], and in routes/auth.js
    [router.post('/change-password', async (req, res) => ...)]: no
    middleware runs between Express and the handler, on the mount or on the
    route, so the handler is given the request as Express made it. *)
Definition POST_api_auth_change_password (w : Ambient)
    (b : AuthRouter.PasswordChange)
    : gmap N User.t → Response User.t * gmap N User.t :=
  AuthRouter.post_change_password w (express_request tt b).

(** [router.post('/create-first-user', ...)] and [router.post('/login', ...)]
    are mounted the same way. *)
Definition POST_api_auth_create_first_user (w : Ambient)
    (b : AuthRouter.Credentials)
    : gmap N User.t → Response User.t * gmap N User.t :=
  AuthRouter.post_create_first_user w (express_request tt b).

Definition POST_api_auth_login (w : Ambient) (b : AuthRouter.Credentials)
    : gmap N User.t → Response User.t * gmap N User.t :=
  AuthRouter.post_login w (express_request tt b).

End app.

End Server.

(** ** A reference runtime

    An executable instance of the collaborators, on which the handlers can be
    run: a reader for JSON text with numbers kept as exact decimals, the
    casts of the values that each schema type takes as they are (and of
    numeric text to a Number, of 24 hexadecimal digits to an ObjectId), and
    a salted hash with the shape of a bcrypt hash.  The texts of the
    engine's and the library's error messages vary with their versions;
    [message] stands for them and no statement below depends on its
    wording. *)

Module Reference.

(** [mantissa * 10 ^ exponent] *)
Record Decimal := { mantissa : Z; exponent : Z }.

Definition quote : ascii := "034"%char.
Definition quoted (s : string) : string :=
  String quote s +:+ String quote EmptyString.

Definition is_space (c : ascii) : bool :=
  bool_decide (c ∈ [" "; "009"; "010"; "013"]%char).
Definition is_digit (c : ascii) : bool :=
  bool_decide (48 ≤ nat_of_ascii c ≤ 57)%nat.
Definition digit (c : ascii) : Z := Z.of_nat (nat_of_ascii c) - 48.

Fixpoint skip_space (s : string) : string :=
  match s with
  | String c rest => if is_space c then skip_space rest else s
  | EmptyString => s
  end.

(** A run of digits: the number they extend [acc] to, how many there were,
    and what follows them. *)
Fixpoint read_digits (s : string) (acc : Z) (count : nat) : Z * nat * string :=
  match s with
  | String c rest =>
      if is_digit c then read_digits rest (acc * 10 + digit c) (S count)
      else (acc, count, s)
  | EmptyString => (acc, count, s)
  end.

Definition read_sign (s : string) : bool * string :=
  match s with
  | String "-" rest => (true, rest)
  | _ => (false, s)
  end.

Definition leading_zero (s : string) : bool :=
  match s with
  | String "0" _ => true
  | _ => false
  end.

(** [-? int frac? exp?] with no leading zero in [int]. *)
Definition read_number (s : string) : option (Decimal * string) :=
  let '(negative, s) := read_sign s in
  let '(int, n, s1) := read_digits s 0 0 in
  _ ← guard (n ≠ 0%nat);
  _ ← guard (n = 1%nat ∨ leading_zero s = false);
  '(m, scale, s2) ←
    match s1 with
    | String "." rest =>
        let '(m, k, rest') := read_digits rest int 0 in
        _ ← guard (k ≠ 0%nat); Some (m, Z.of_nat k, rest')
    | _ => Some (int, 0, s1)
    end;
  '(e, s3) ←
    match s2 with
    | String c rest =>
        if bool_decide (c = "e" ∨ c = "E")%char then
          let '(minus, rest) :=
            match rest with
            | String "+" r => (false, r)
            | String "-" r => (true, r)
            | _ => (false, rest)
            end in
          let '(e, k, rest') := read_digits rest 0 0 in
          _ ← guard (k ≠ 0%nat); Some (if minus then - e else e, rest')
        else Some (0, s2)
    | EmptyString => Some (0, s2)
    end;
  Some ({| mantissa := if negative then - m else m; exponent := e - scale |},
        s3).

(** The characters of a string after its opening quote, with the
    one-character escapes. *)
Fixpoint read_string (s : string) : option (string * string) :=
  match s with
  | EmptyString => None
  | String c rest =>
      if bool_decide (c = quote) then Some (EmptyString, rest)
      else if bool_decide (c = "\"%char) then
        match rest with
        | String e rest' =>
            c' ← (if bool_decide (e = quote) then Some quote
                  else match e with
                       | "\" => Some "\" | "/" => Some "/"
                       | "b" => Some "008" | "f" => Some "012"
                       | "n" => Some "010" | "r" => Some "013"
                       | "t" => Some "009" | _ => None
                       end%char);
            '(text, after) ← read_string rest';
            Some (String c' text, after)
        | EmptyString => None
        end
      else if bool_decide (nat_of_ascii c < 32)%nat then None
      else
        '(text, after) ← read_string rest;
        Some (String c text, after)
  end.

Definition read_literal {A} (word : string) (v : A) (s : string)
    : option (A * string) :=
  if bool_decide (String.prefix word s = true)
  then Some (v, String.substring (String.length word)
                  (String.length s - String.length word) s)
  else None.

(** A value, the elements of an array after the first bracket, the members
    of an object after the first brace; [fuel] bounds the calls. *)
Fixpoint read_value (fuel : nat) (s : string)
    : option (JSONValue Decimal * string) :=
  match fuel with
  | O => None
  | S fuel =>
      match skip_space s with
      | String c rest =>
          if bool_decide (c = quote) then
            '(text, after) ← read_string rest; Some (JString text, after)
          else match c with
          | "["%char =>
              match skip_space rest with
              | String "]" after => Some (JArray [], after)
              | _ => read_elements fuel rest []
              end
          | "{"%char =>
              match skip_space rest with
              | String "}" after => Some (JObject [], after)
              | _ => read_members fuel rest []
              end
          | "n"%char => read_literal "null" JNull (skip_space s)
          | "t"%char => read_literal "true" (JBool true) (skip_space s)
          | "f"%char => read_literal "false" (JBool false) (skip_space s)
          | _ =>
              '(n, after) ← read_number (skip_space s);
              Some (JNumber n, after)
          end
      | EmptyString => None
      end
  end
with read_elements (fuel : nat) (s : string) (seen : list (JSONValue Decimal))
    : option (JSONValue Decimal * string) :=
  match fuel with
  | O => None
  | S fuel =>
      '(v, after) ← read_value fuel s;
      match skip_space after with
      | String "," rest => read_elements fuel rest (v :: seen)
      | String "]" rest => Some (JArray (reverse (v :: seen)), rest)
      | _ => None
      end
  end
with read_members (fuel : nat) (s : string)
    (seen : list (string * JSONValue Decimal))
    : option (JSONValue Decimal * string) :=
  match fuel with
  | O => None
  | S fuel =>
      match skip_space s with
      | String c rest =>
          _ ← guard (c = quote);
          '(key, after) ← read_string rest;
          match skip_space after with
          | String ":" rest =>
              '(v, after) ← read_value fuel rest;
              (* a repeated key keeps its last value *)
              let seen := (key, v) :: filter (λ kv, kv.1 ≠ key) seen in
              match skip_space after with
              | String "," rest => read_members fuel rest seen
              | String "}" rest => Some (JObject (reverse seen), rest)
              | _ => None
              end
          | _ => None
          end
      | EmptyString => None
      end
  end.

Definition parse (text : string) : option (JSONValue Decimal) :=
  '(v, after) ← read_value (2 * String.length text + 2) text;
  _ ← guard (skip_space after = EmptyString);
  Some v.

(** Numeric text as a Number path takes it. *)
Definition number_of_text (s : string) : option Decimal :=
  '(n, after) ← read_number s;
  _ ← guard (after = EmptyString);
  Some n.

Definition cast_number (v : JSONValue Decimal) : option (option Decimal) :=
  match v with
  | JNumber n => Some (Some n)
  | JString s =>
      if decide (s = EmptyString) then Some None
      else Some <$> number_of_text s
  | JBool b => Some (Some {| mantissa := if b then 1 else 0; exponent := 0 |})
  | _ => None
  end.

Definition cast_string (v : JSONValue Decimal) : option string :=
  match v with
  | JString s => Some s
  | JBool b => Some (if b then "true" else "false")
  | _ => None
  end.

(** An element that is an object becomes a subdocument of its fields;
    any other value is refused. *)
Definition cast_subdocument (v : JSONValue Decimal)
    : option (option (list (string * JSONValue Decimal))) :=
  match v with
  | JObject fields => Some (Some fields)
  | _ => None
  end.

Definition hex_digit (c : ascii) : option N :=
  let n := N.of_nat (nat_of_ascii c) in
  if bool_decide (48 ≤ n ≤ 57)%N then Some (n - 48)%N
  else if bool_decide (97 ≤ n ≤ 102)%N then Some (n - 87)%N
  else if bool_decide (65 ≤ n ≤ 70)%N then Some (n - 55)%N
  else None.

Fixpoint read_hex (s : string) (acc : N) : option N :=
  match s with
  | EmptyString => Some acc
  | String c rest => d ← hex_digit c; read_hex rest (acc * 16 + d)%N
  end.

(** The 24 hexadecimal digits of an ObjectId. *)
Definition cast_object_id (s : string) : option N :=
  if decide (String.length s = 24%nat) then read_hex s 0%N else None.

(** The last component of a dotted path. *)
Fixpoint last_component (s : string) (acc : string) : string :=
  match s with
  | EmptyString => acc
  | String "." rest => last_component rest EmptyString
  | String c rest => last_component rest (acc +:+ String c EmptyString)
  end.

Definition render_validator (e : string * ValidatorKind) : string :=
  match e.2 with
  | Required =>
      e.1 +:+ ": Path `" +:+ last_component e.1 EmptyString
      +:+ "` is required."
  | CastFailed type =>
      e.1 +:+ ": Cast to " +:+ type +:+ " failed at path "
      +:+ quoted (last_component e.1 EmptyString)
  end.

Definition message (e : Error) : string :=
  match e with
  | SyntaxError text => quoted text +:+ " is not valid JSON"
  | TypeError_undefined property =>
      "Cannot read properties of undefined (reading '" +:+ property +:+ "')"
  | ValidationError model errors =>
      model +:+ " validation failed: "
      +:+ String.concat ", " (map render_validator errors)
  | CastError type value path_ model =>
      "Cast to " +:+ type +:+ " failed for value " +:+ quoted value
      +:+ " (type string) at path " +:+ quoted path_ +:+ " for model "
      +:+ quoted model
  | Error_new text => text
  end.

(** A text cut, or filled with dots, to [n] characters. *)
Fixpoint fit (n : nat) (s : string) : string :=
  match n, s with
  | O, _ => EmptyString
  | S n, String c s => String c (fit n s)
  | S n, EmptyString => String "." (fit n EmptyString)
  end.

(** The [n] low hexadecimal digits of a number. *)
Fixpoint digits (n : nat) (x : N) : string :=
  match n with
  | O => EmptyString
  | S n =>
      String (ascii_of_N (let d := (x mod 16)%N in
                          if bool_decide (d < 10)%N then d + 48 else d + 87)%N)
        (digits n (x / 16)%N)
  end.

Fixpoint checksum (s : string) (acc : N) : N :=
  match s with
  | EmptyString => acc
  | String c s =>
      checksum s ((acc * 131 + N.of_nat (nat_of_ascii c)) mod 2 ^ 124)%N
  end.

(** A hash in the shape of bcrypt's: the 29 characters of the salt, then 31
    characters that depend on the salt and the password; [compare] hashes
    the password with the salt that the hash starts with. *)
Definition hash (pw salt : string) : string :=
  fit 29 salt +:+ digits 31 (checksum pw (checksum (fit 29 salt) 7%N)).
Definition compare (pw h : string) : bool :=
  bool_decide (hash pw (fit 29 h) = h).

Global Instance runtime : Runtime := {|
  number := Decimal;
  JSON_parse := parse;
  SchemaNumber_cast := cast_number;
  SchemaString_cast := cast_string;
  Subdocument_cast := cast_subdocument;
  ObjectId_cast := cast_object_id;
  error_message := message;
  bcrypt_hash := hash;
  bcrypt_compare := compare;
|}.

End Reference.

(** ** What a request that validation accepts stores

    The vocabulary of the statements below: when a form is accepted, and the
    record that is then stored. *)

Section accepted.
Context `{Runtime}.

(** An element of [items] with a non-empty [description] and a numeric
    [amount]. *)
Definition acceptable_item (it : Cast string * Cast number) : Prop :=
  (∃ s, it.1 = Value s ∧ s ≠ EmptyString) ∧ (∃ a, it.2 = Value a).

(** An element of [items] that is not a subdocument, or is an acceptable
    one. *)
Definition acceptable_element
    (el : Expense.Element (Cast string * Cast number)) : Prop :=
  match el with
  | Expense.Subdocument it => acceptable_item it
  | Expense.Uncast _ => True
  end.

(** An [items] that is null, or an array of acceptable elements. *)
Definition acceptable_items
    (its : Cast (list (Expense.Element (Cast string * Cast number)))) : Prop :=
  match its with
  | Nullish => True
  | Value its => Forall acceptable_element its
  | Invalid => False
  end.

(** The form's [items] is JSON text that casts to [its], which validation
    accepts, and its [totalAmount] is the number [total]. *)
Definition Expense_accepts (form : ExpenseRouter.Form)
    (its : Cast (list (Expense.Element (Cast string * Cast number))))
    (total : number) : Prop :=
  (∃ j, JSON_parse_value (ExpenseRouter.items form) = Returned j
        ∧ Expense.cast_items j = its)
  ∧ acceptable_items its
  ∧ cast_Number (JString <$> ExpenseRouter.totalAmount form) = Value total.

(** The references of the uploaded images. *)
Definition uploaded (fs : option (list File)) : list File :=
  if fs is Some l then map ExpenseRouter.reference l else [].

(** The document an accepted creation stores. *)
Definition Income_created (w : Ambient) (uid : N) (form : IncomeRouter.Form)
    (f : option File) (a : number) : Income.t :=
  {| Income.amount := a;
     Income.slip := if f is Some f then Some (IncomeRouter.reference f) else None;
     Income.notes := IncomeRouter.notes form;
     Income.createdBy := uid;
     Income.createdAt := Date_now w;
     Income.updatedAt := Date_now w |}.

(** The document an accepted update stores in place of [d]. *)
Definition Income_updated (w : Ambient) (form : IncomeRouter.Form)
    (f : option File) (a : number) (d : Income.t) : Income.t :=
  {| Income.amount := a;
     Income.slip :=
       if f is Some f then Some (IncomeRouter.reference f) else Income.slip d;
     Income.notes := IncomeRouter.notes form;
     Income.createdBy := Income.createdBy d;
     Income.createdAt := Income.createdAt d;
     Income.updatedAt := Date_now w |}.

(** The stored document that [values] builds from accepted paths. *)
Definition Expense_stored (w : Ambient) (d : Expense.Doc)
    (items_ : option (list (Expense.Element Expense.Item))) (total : number)
    : Expense.t :=
  {| Expense.items := items_; Expense.totalAmount := total;
     Expense.images := Expense.doc_images d;
     Expense.notes := Expense.doc_notes d;
     Expense.createdBy := Expense.doc_createdBy d;
     Expense.createdAt := default (Date_now w) (Expense.doc_createdAt d);
     Expense.updatedAt := Date_now w |}.

(** The document an accepted creation stores. *)
Definition Expense_created (w : Ambient) (uid : N) (form : ExpenseRouter.Form)
    (fs : option (list File))
    (items_ : option (list (Expense.Element Expense.Item))) (total : number)
    : Expense.t :=
  {| Expense.items := items_; Expense.totalAmount := total;
     Expense.images := uploaded fs;
     Expense.notes := ExpenseRouter.notes form;
     Expense.createdBy := uid;
     Expense.createdAt := Date_now w;
     Expense.updatedAt := Date_now w |}.

(** The document an accepted update stores in place of [d]. *)
Definition Expense_updated (w : Ambient) (form : ExpenseRouter.Form)
    (fs : option (list File))
    (items_ : option (list (Expense.Element Expense.Item))) (total : number)
    (d : Expense.t) : Expense.t :=
  {| Expense.items := items_; Expense.totalAmount := total;
     Expense.images := Expense.images d ++ uploaded fs;
     Expense.notes := ExpenseRouter.notes form;
     Expense.createdBy := Expense.createdBy d;
     Expense.createdAt := Expense.createdAt d;
     Expense.updatedAt := Date_now w |}.

End accepted.

(** ** The multer storage of routes/income.js and routes/expense.js *)

Module Upload.

(** [destination: function(req, file, cb) { cb(null, 'uploads/'); }] *)
Definition destination : string := "uploads/".

(** [filename: function(req, file, cb) {
       cb(null, Date.now() + '-' + file.originalname); }]:
    the clock's integer in decimal, a dash, the name the client gave. *)
Definition filename (w : Ambient) (originalname : string) : string :=
  pretty (Date_now w) +:+ "-" +:+ originalname.

End Upload.

(** ** Invariants and effects of the stores *)

(** No two stored users share a username. *)
Definition unique_usernames (db : gmap N User.t) : Prop :=
  ∀ i j ui uj, db !! i = Some ui → db !! j = Some uj →
    User.username ui = User.username uj → i = j.

(** Every subdocument among the items of a stored expense has a description
    that is not empty. *)
Definition described `{Runtime} (d : Expense.t) : Prop :=
  ∀ its, Expense.items d = Some its →
    Forall (λ el, ∀ it, el = Expense.Subdocument it →
                    Expense.description it ≠ EmptyString) its.

(** The ways one request of [uid] may leave a store: as it was, with one
    record of [uid] added under an unused [_id], with one record of [uid]
    replaced by a record of [uid], or with one record of [uid] removed. *)
Definition write_effect {D} (createdBy : D → ObjectId) (uid : ObjectId)
    (db db' : gmap N D) : Prop :=
  db' = db
  ∨ (∃ id d, db !! id = None ∧ createdBy d = uid ∧ db' = <[id := d]> db)
  ∨ (∃ id d0 d, db !! id = Some d0 ∧ createdBy d0 = uid ∧ createdBy d = uid
                ∧ db' = <[id := d]> db)
  ∨ (∃ id d0, db !! id = Some d0 ∧ createdBy d0 = uid ∧ db' = delete id db).

(** A string without a dash. *)
Fixpoint dashless (s : string) : Prop :=
  match s with
  | EmptyString => True
  | String c s => c ≠ "-"%char ∧ dashless s
  end.

(** ** Sample data, on the reference runtime *)

Module Example.

Definition at_time (t : Date) : Ambient :=
  {| JWT_SECRET := Some "s3cret"; Date_now := t;
     genSalt := "$2a$10$abcdefghijklmnopqrstuu" |}.
Definition morning : Ambient := at_time 1700000000000.
Definition noon : Ambient := at_time 1700000014400.
Definition evening : Ambient := at_time 1700000036000.

Definition alice : User.t :=
  {| User.username := "alice";
     User.password :=
       Reference.hash "wonderland" "$2a$10$abcdefghijklmnopqrstuu" |}.
Definition users : gmap N User.t := {[ 1%N := alice ]}.

Definition Alice : User.t :=
  {| User.username := "Alice";
     User.password :=
       Reference.hash "looking-glass" "$2a$10$ABCDEFGHIJKLMNOPQRSTUU" |}.

Definition credentials (name pw : string)
    : Request unit AuthRouter.Credentials :=
  express_request tt
    {| AuthRouter.username := name; AuthRouter.password := pw |}.

Definition receipt : File :=
  {| path := "uploads/1699999999000-receipt.png";
     filename := "1699999999000-receipt.png" |}.

Definition new_slip : File :=
  {| path := "uploads/1700000014400-slip.png";
     filename := "1700000014400-slip.png" |}.
Definition photo : File :=
  {| path := "uploads/1700000014400-photo.jpg";
     filename := "1700000014400-photo.jpg" |}.

(** The texts of the identifiers 1 and 2, and a text that is not one of an
    identifier. *)
Definition first : string := "000000000000000000000001".
Definition second : string := "000000000000000000000002".
Definition malformed : string := "xyz".

(** A process whose [JWT_SECRET] is not set. *)
Definition unconfigured : Ambient :=
  {| JWT_SECRET := None; Date_now := 1700000014400;
     genSalt := "$2a$10$abcdefghijklmnopqrstuu" |}.

Definition decimal (m e : Z) : Reference.Decimal :=
  {| Reference.mantissa := m; Reference.exponent := e |}.

(** An income and an expense that user 7 created. *)
Definition salary : Income.t :=
  {| Income.amount := decimal 1000 0; Income.slip := Some receipt;
     Income.notes := Some "salary"; Income.createdBy := 7%N;
     Income.createdAt := 1699999999000;
     Income.updatedAt := 1699999999000 |}.
Definition incomes : gmap N Income.t := {[ 1%N := salary ]}.

Definition lunch : Expense.t :=
  {| Expense.items :=
       Some [Expense.Subdocument
               {| Expense.description := "lunch";
                  Expense.amount := decimal 12 0 |}];
     Expense.totalAmount := decimal 12 0;
     Expense.images := [receipt]; Expense.notes := Some "old";
     Expense.createdBy := 7%N;
     Expense.createdAt := 1699999999000;
     Expense.updatedAt := 1699999999000 |}.
Definition expenses : gmap N Expense.t := {[ 1%N := lunch ]}.

Definition income_form (amount_ : string) : IncomeRouter.Form :=
  {| IncomeRouter.amount := Some amount_;
     IncomeRouter.notes := Some "new" |}.

(** The text [[{"description":"coffee","amount":3.5}]]. *)
Definition coffee_text : string :=
  "[{" +:+ Reference.quoted "description" +:+ ":"
  +:+ Reference.quoted "coffee" +:+ ","
  +:+ Reference.quoted "amount" +:+ ":3.5}]".

(** The text [[{"amount":3}]]. *)
Definition undescribed_text : string :=
  "[{" +:+ Reference.quoted "amount" +:+ ":3}]".

Definition expense_form (items_ : option string) (total_ : string)
    : ExpenseRouter.Form :=
  {| ExpenseRouter.items := items_;
     ExpenseRouter.totalAmount := Some total_;
     ExpenseRouter.notes := Some "new" |}.

Definition coffee : ExpenseRouter.Form :=
  expense_form (Some coffee_text) "3.5".
Definition no_items : ExpenseRouter.Form := expense_form (Some "[]") "10".
Definition undescribed : ExpenseRouter.Form :=
  expense_form (Some undescribed_text) "3".
Definition garbled : ExpenseRouter.Form := expense_form (Some "oops") "99".
Definition null_item : ExpenseRouter.Form := expense_form (Some "[null]") "4".
Definition null_items : ExpenseRouter.Form := expense_form (Some "null") "4".
Definition unlisted : ExpenseRouter.Form := expense_form None "99".

End Example.

(** * Properties *)

(** Runs the monadic plumbing of a handler applied to a store. *)
Ltac run :=
  cbv [try_catch mbind mret Async_bind Async_ret get put throw settle
       res_json req_user_userId
       User.findOne User.findById User.new User.save
       Model_findOne Model_findOneAndDelete Model_find_sort];
  cbn [fst snd user params body file files userId].

(** ** Looking a user up by name *)

Section user_lookup.
Context (db : gmap N User.t) (name : string).

Let named (d : N * User.t) : Prop := User.username d.2 = name.

Lemma User_lookup_absent :
  (∀ id u, db !! id = Some u → User.username u ≠ name) →
  list_find named (map_to_list db) = None.
Proof.
  intros Hno. apply list_find_None, Forall_forall.
  intros [id u] Hin%elem_of_map_to_list. exact (Hno id u Hin).
Qed.

Lemma User_lookup_found k id u :
  list_find named (map_to_list db) = Some (k, (id, u)) →
  db !! id = Some u ∧ User.username u = name.
Proof.
  intros (Hk & Hname & _)%list_find_Some. split; [|exact Hname].
  apply elem_of_map_to_list. eapply list_elem_of_lookup_2, Hk.
Qed.

Lemma User_lookup_present id u :
  db !! id = Some u → User.username u = name →
  ∃ k id' u', list_find named (map_to_list db) = Some (k, (id', u')).
Proof.
  intros Hin Hname.
  destruct (list_find_elem_of named (map_to_list db) (id, u))
    as [[k [id' u']] Hfind]; [by apply elem_of_map_to_list|done|].
  by exists k, id', u'.
Qed.

End user_lookup.

Section credentials.
Context `{Runtime}.

Lemma post_login_unknown (w : Ambient) req (db : gmap N User.t) :
  (∀ id u, db !! id = Some u →
     User.username u ≠ AuthRouter.username (body req)) →
  AuthRouter.post_login w req db
  = (res_status_json 401 (Message "Invalid credentials"), db).
Proof.
  intros Hno. unfold AuthRouter.post_login. run.
  by rewrite (User_lookup_absent _ _ Hno).
Qed.

Lemma post_login_mismatch (w : Ambient) req (db : gmap N User.t) :
  (∀ id u, db !! id = Some u →
     User.username u = AuthRouter.username (body req) →
     bcrypt_compare (AuthRouter.password (body req)) (User.password u)
     = false) →
  AuthRouter.post_login w req db
  = (res_status_json 401 (Message "Invalid credentials"), db).
Proof.
  intros Hbad. unfold AuthRouter.post_login. run.
  destruct (list_find _ _) as [[k [id u]]|] eqn:Hfind; [|done]. simpl.
  apply User_lookup_found in Hfind as [Hin Hname].
  by rewrite (Hbad id u Hin Hname).
Qed.

Lemma post_login_match (w : Ambient) req (db : gmap N User.t) id u :
  db !! id = Some u →
  User.username u = AuthRouter.username (body req) →
  (∀ id' u', db !! id' = Some u' →
     User.username u' = AuthRouter.username (body req) → id' = id) →
  bcrypt_compare (AuthRouter.password (body req)) (User.password u) = true →
  AuthRouter.post_login w req db
  = (match jwt_sign id (JWT_SECRET w) w with
     | Returned token => res_json (TokenOf token)
     | Thrown e => res_status_json 500 (Message (error_message e))
     end, db).
Proof.
  intros Hin Hname Hunique Hmatch. unfold AuthRouter.post_login. run.
  destruct (User_lookup_present db _ id u Hin Hname) as (k & id' & u' & Hfind).
  rewrite Hfind. simpl.
  apply User_lookup_found in Hfind as [Hin' Hname'].
  assert (id' = id) as -> by eauto.
  assert (u' = u) as -> by congruence.
  rewrite Hmatch. simpl. by destruct (jwt_sign _ _ _).
Qed.

(** With a secret that is set and not empty, [jwt.sign] returns a token for
    the identifier, signed with the secret, that expires a day after it was
    issued. *)
Lemma jwt_sign_configured (uid : N) (w : Ambient) key :
  JWT_SECRET w = Some key → key ≠ EmptyString →
  ∃ token, jwt_sign uid (JWT_SECRET w) w = Returned token
           ∧ token_userId token = uid
           ∧ token_key token = key
           ∧ token_exp token = token_iat token + 86400.
Proof.
  intros -> Hkey. destruct key as [|c key]; [done|].
  eexists. split; [reflexivity|done].
Qed.

Lemma jwt_sign_unconfigured (uid : N) (w : Ambient) :
  JWT_SECRET w = None ∨ JWT_SECRET w = Some EmptyString →
  jwt_sign uid (JWT_SECRET w) w
  = Thrown (Error_new "secretOrPrivateKey must have a value").
Proof. by intros [->| ->]. Qed.

Lemma post_create_first_user_taken (w : Ambient) req (db : gmap N User.t) :
  (∃ id u, db !! id = Some u
           ∧ User.username u = AuthRouter.username (body req)) →
  AuthRouter.post_create_first_user w req db
  = (res_status_json 400 (Message "User already exists"), db).
Proof.
  intros (id & u & Hin & Hname). unfold AuthRouter.post_create_first_user. run.
  destruct (User_lookup_present db _ id u Hin Hname) as (k & id' & u' & Hfind).
  by rewrite Hfind.
Qed.

Lemma post_create_first_user_free (w : Ambient) req (db : gmap N User.t) :
  (∀ id u, db !! id = Some u →
     User.username u ≠ AuthRouter.username (body req)) →
  AuthRouter.post_create_first_user w req db
  = (res_status_json 201 (Message "User created successfully"),
     <[fresh (dom db) :=
         {| User.username := AuthRouter.username (body req);
            User.password :=
              bcrypt_hash (AuthRouter.password (body req)) (genSalt w) |}]>
       db).
Proof.
  intros Hno. unfold AuthRouter.post_create_first_user. run.
  by rewrite (User_lookup_absent _ _ Hno).
Qed.

Lemma fresh_id_unused {D} (db : gmap N D) : db !! fresh (dom db) = None.
Proof. apply not_elem_of_dom, is_fresh. Qed.

(** The handler of [/change-password] on a request that carries [req.user]:
    what the route would do behind the [auth] middleware. *)
Lemma post_change_password_with_user (w : Ambient) req uid
    (db : gmap N User.t) :
  user req = Some {| userId := uid |} →
  AuthRouter.post_change_password w req db =
    match db !! uid with
    | None => (res_status_json 404 (Message "User not found"), db)
    | Some u =>
        if bcrypt_compare (AuthRouter.currentPassword (body req))
             (User.password u)
        then (res_json (Message "Password changed successfully"),
              <[uid := {| User.username := User.username u;
                          User.password :=
                            bcrypt_hash (AuthRouter.newPassword (body req))
                              (genSalt w) |}]> db)
        else (res_status_json 401 (Message "Current password is incorrect"),
              db)
    end.
Proof.
  intros Huser. unfold AuthRouter.post_change_password. run. rewrite Huser.
  simpl. destruct (db !! uid) as [u|]; [|done]. simpl.
  by destruct (bcrypt_compare _ _).
Qed.

(** Behind [auth], with usernames that are unique and a configured secret:
    a change of password by a user who gives the current one stores the
    hash of the new one; a login with the new password then succeeds, and
    one with the old password fails when bcrypt tells it from the new
    one. *)
Lemma post_change_password_then_login `{!BcryptLaws} (w w' : Ambient)
    req uid (db : gmap N User.t) u key :
  user req = Some {| userId := uid |} →
  db !! uid = Some u →
  (∀ i j ui uj, db !! i = Some ui → db !! j = Some uj →
     User.username ui = User.username uj → i = j) →
  bcrypt_compare (AuthRouter.currentPassword (body req)) (User.password u)
  = true →
  JWT_SECRET w' = Some key → key ≠ EmptyString →
  ∃ db' token,
    AuthRouter.post_change_password w req db
    = (res_json (Message "Password changed successfully"), db')
    ∧ AuthRouter.post_login w'
        (express_request tt
           {| AuthRouter.username := User.username u;
              AuthRouter.password := AuthRouter.newPassword (body req) |}) db'
      = (res_json (TokenOf token), db')
    ∧ token_userId token = uid
    ∧ (bcrypt_compare (AuthRouter.currentPassword (body req))
         (bcrypt_hash (AuthRouter.newPassword (body req)) (genSalt w))
       = false →
       AuthRouter.post_login w'
         (express_request tt
            {| AuthRouter.username := User.username u;
               AuthRouter.password := AuthRouter.currentPassword (body req) |})
         db'
       = (res_status_json 401 (Message "Invalid credentials"), db')).
Proof.
  intros Huser Hu Hunique Hmatch Hsecret Hkey.
  destruct (jwt_sign_configured uid w' key Hsecret Hkey)
    as (token & Hsign & Htoken & _).
  rewrite (post_change_password_with_user w req uid db Huser), Hu, Hmatch.
  set (u' := {| User.username := User.username u;
                User.password :=
                  bcrypt_hash (AuthRouter.newPassword (body req))
                    (genSalt w) |}).
  assert (∀ i ui, <[uid := u']> db !! i = Some ui →
            User.username ui = User.username u → i = uid ∧ ui = u')
    as Hsame.
  { intros i ui Hi Hname. destruct (decide (i = uid)) as [->|Hne].
    - rewrite lookup_insert_eq in Hi. by injection Hi as <-.
    - rewrite lookup_insert_ne in Hi by done.
      destruct Hne. by apply (Hunique i uid ui u). }
  eexists _, token. split_and!; [reflexivity| |done|].
  - rewrite (post_login_match w' _ _ uid u'); simpl.
    + by rewrite Hsign.
    + apply lookup_insert_eq.
    + done.
    + intros i ui Hi Hname. by destruct (Hsame i ui Hi Hname).
    + apply bcrypt_compare_hash.
  - intros Hdiff. apply post_login_mismatch; simpl.
    intros i ui Hi Hname. by destruct (Hsame i ui Hi Hname) as [_ ->].
Qed.

End credentials.

(** ** The reference runtime's hash has the shape of bcrypt's *)

Lemma Reference_fit_length n s : String.length (Reference.fit n s) = n.
Proof.
  revert s. induction n as [|n IH]; intros [|c s]; simpl; by rewrite ?IH.
Qed.

Lemma Reference_fit_app n s t :
  Reference.fit n (Reference.fit n s +:+ t) = Reference.fit n s.
Proof.
  revert s. induction n as [|n IH]; intros [|c s]; simpl; [done..| |].
  - f_equal. apply (IH EmptyString).
  - f_equal. apply IH.
Qed.

Lemma Reference_digits_length n x : String.length (Reference.digits n x) = n.
Proof. revert x. induction n as [|n IH]; intros x; simpl; by rewrite ?IH. Qed.

Lemma String_length_app (s t : string) :
  String.length (s +:+ t) = (String.length s + String.length t)%nat.
Proof. induction s as [|c s IH]; simpl; by rewrite ?IH. Qed.

Lemma Reference_fit_fit n s :
  Reference.fit n (Reference.fit n s) = Reference.fit n s.
Proof.
  revert s. induction n as [|n IH]; intros [|c s]; simpl; [done..| |];
    f_equal; apply IH.
Qed.

Lemma Reference_hash_salt pw salt :
  Reference.fit 29 (Reference.hash pw salt) = Reference.fit 29 salt.
Proof. apply Reference_fit_app. Qed.

Global Instance Reference_bcrypt : @BcryptLaws Reference.runtime.
Proof.
  split.
  - intros pw salt.
    change (Reference.compare pw (Reference.hash pw salt) = true).
    unfold Reference.compare. apply bool_decide_eq_true.
    rewrite Reference_hash_salt. unfold Reference.hash.
    by rewrite Reference_fit_fit.
  - intros pw salt.
    change (String.length (Reference.hash pw salt) = 60%nat).
    unfold Reference.hash.
    by rewrite String_length_app, Reference_fit_length,
      Reference_digits_length.
Qed.

(** ** Credential lifecycle *)

(** C2. A login for a username that no stored user has, and a login for a
    stored username whose stored hash the password does not match, are
    answered alike: status 401 with the message "Invalid credentials", and
    the users are left as they were. *)
Theorem login_failures_indistinguishable `{Runtime} (w1 w2 : Ambient)
    (req1 req2 : Request unit AuthRouter.Credentials)
    (db1 db2 : gmap N User.t) :
  (∀ id u, db1 !! id = Some u →
     User.username u ≠ AuthRouter.username (body req1)) →
  (∃ id u, db2 !! id = Some u
           ∧ User.username u = AuthRouter.username (body req2)) →
  (∀ id u, db2 !! id = Some u →
     User.username u = AuthRouter.username (body req2) →
     bcrypt_compare (AuthRouter.password (body req2)) (User.password u)
     = false) →
  AuthRouter.post_login w1 req1 db1
  = (res_status_json 401 (Message "Invalid credentials"), db1)
  ∧ AuthRouter.post_login w2 req2 db2
    = (res_status_json 401 (Message "Invalid credentials"), db2).
Proof.
  intros Hunknown _ Hmismatch. split.
  - by apply post_login_unknown.
  - by apply post_login_mismatch.
Qed.

(** C7. A registration under a username that a stored user already has
    (compared exactly, so case matters) fails with "User already exists" and
    leaves the users as they were; under a username that no stored user has
    it succeeds and adds one user, under an identifier not in use before. *)
Theorem register_conflict_on_taken_username `{Runtime} (w : Ambient)
    (req : Request unit AuthRouter.Credentials)
    (taken free : gmap N User.t) :
  (∃ id u, taken !! id = Some u
           ∧ User.username u = AuthRouter.username (body req)) →
  (∀ id u, free !! id = Some u →
     User.username u ≠ AuthRouter.username (body req)) →
  AuthRouter.post_create_first_user w req taken
  = (res_status_json 400 (Message "User already exists"), taken)
  ∧ ∃ id,
      free !! id = None
      ∧ AuthRouter.post_create_first_user w req free
        = (res_status_json 201 (Message "User created successfully"),
           <[id := {| User.username := AuthRouter.username (body req);
                      User.password :=
                        bcrypt_hash (AuthRouter.password (body req))
                          (genSalt w) |}]> free).
Proof.
  intros Htaken Hfree. split.
  - by apply post_create_first_user_taken.
  - exists (fresh (dom free)). split; [apply fresh_id_unused|].
    by apply post_create_first_user_free.
Qed.

(** C5. With a signing secret configured, and a bcrypt whose [compare]
    accepts the hash made from the same password: registering a username
    that no stored user has stores one new user whose credential is the
    bcrypt hash of the password under the drawn salt, a text of 60
    characters that differs from any password of another length; a login
    with the same credentials then answers 200 with a token whose [userId]
    is the identifier of that new user. *)
Theorem register_then_login `{Runtime} `{!BcryptLaws} (w1 w2 : Ambient)
    (req : Request unit AuthRouter.Credentials) (db : gmap N User.t)
    (key : string) :
  JWT_SECRET w2 = Some key → key ≠ EmptyString →
  (∀ id u, db !! id = Some u →
     User.username u ≠ AuthRouter.username (body req)) →
  ∃ id created token,
    db !! id = None
    ∧ AuthRouter.post_create_first_user w1 req db
      = (res_status_json 201 (Message "User created successfully"),
         <[id := created]> db)
    ∧ User.username created = AuthRouter.username (body req)
    ∧ User.password created
      = bcrypt_hash (AuthRouter.password (body req)) (genSalt w1)
    ∧ String.length (User.password created) = 60%nat
    ∧ (String.length (AuthRouter.password (body req)) ≠ 60%nat →
       User.password created ≠ AuthRouter.password (body req))
    ∧ AuthRouter.post_login w2 req (<[id := created]> db)
      = (res_status_json 200 (TokenOf token), <[id := created]> db)
    ∧ token_userId token = id
    ∧ token_key token = key.
Proof.
  intros Hsecret Hkey Hfree.
  set (created :=
         {| User.username := AuthRouter.username (body req);
            User.password :=
              bcrypt_hash (AuthRouter.password (body req)) (genSalt w1) |}).
  destruct (jwt_sign_configured (fresh (dom db)) w2 key Hsecret Hkey)
    as (token & Hsign & Htoken & Htkey & _).
  exists (fresh (dom db)), created, token.
  split_and!; try done.
  - apply fresh_id_unused.
  - by apply post_create_first_user_free.
  - apply bcrypt_hash_length.
  - intros Hlen Heq. apply Hlen. rewrite <- Heq. apply bcrypt_hash_length.
  - rewrite (post_login_match w2 req _ (fresh (dom db)) created).
    + by rewrite Hsign.
    + apply lookup_insert_eq.
    + done.
    + intros id' u' Hin Hname.
      destruct (decide (id' = fresh (dom db))) as [|Hne]; [done|].
      rewrite lookup_insert_ne in Hin by done.
      by destruct (Hfree id' u' Hin).
    + apply bcrypt_compare_hash.
Qed.

(** C4. As server.js and routes/auth.js wire it, [/change-password] runs
    with no middleware before the handler: whatever the body and whoever
    the caller, reading [req.user.userId] throws, the answer is status 500
    with that error's message, and no stored hash is replaced. *)
Theorem change_password_route_answers_500 `{Runtime} (w : Ambient)
    (b : AuthRouter.PasswordChange) (db : gmap N User.t) :
  Server.POST_api_auth_change_password w b db
  = (res_status_json 500
       (Message (error_message (TypeError_undefined "userId"))), db).
Proof. reflexivity. Qed.

(** ** Owner-scoped queries *)

Section owner_lookup.
Context {D : Type} (createdBy : D → ObjectId).
Implicit Types (db : gmap N D) (id uid : N).

Lemma owned_Some db id uid d :
  owned createdBy db id uid = Some d ↔ db !! id = Some d ∧ createdBy d = uid.
Proof.
  unfold owned. destruct (db !! id) as [d'|]; simpl.
  - case_decide; split; [intros [= ->]|intros [[= ->] _]| |]; try done.
    by intros [[= ->] ?].
  - split; [done|]. by intros [? _].
Qed.

Lemma owned_None db id uid :
  owned createdBy db id uid = None
  ↔ db !! id = None ∨ ∃ d, db !! id = Some d ∧ createdBy d ≠ uid.
Proof.
  unfold owned. destruct (db !! id) as [d'|]; simpl.
  - case_decide; split; try done.
    + intros [|(d & [= ->] & ?)]; done.
    + intros _. right. by exists d'.
  - split; [by left|done].
Qed.

End owner_lookup.

Section owner_queries.
Context `{Runtime} {D : Type} (model : string) (createdBy : D → ObjectId).
Implicit Types (db : gmap N D) (id uid : N) (s : string).

Lemma Model_findOne_owned db s uid :
  Model_findOne model createdBy s uid db
  = match ObjectId_cast s with
    | Some id => (Returned (pair id <$> owned createdBy db id uid), db)
    | None => (Thrown (CastError "ObjectId" s "_id" model), db)
    end.
Proof.
  unfold owned, Model_findOne, cast_id.
  destruct (ObjectId_cast s) as [id|]; [|done].
  cbv [mbind mret Async_bind Async_ret get].
  destruct (db !! id) as [d|]; simpl; [|done]. by case_decide.
Qed.

Lemma Model_findOneAndDelete_owned db s uid :
  Model_findOneAndDelete model createdBy s uid db
  = match ObjectId_cast s with
    | Some id =>
        (Returned (pair id <$> owned createdBy db id uid),
         if owned createdBy db id uid is Some _ then delete id db else db)
    | None => (Thrown (CastError "ObjectId" s "_id" model), db)
    end.
Proof.
  unfold owned, Model_findOneAndDelete, cast_id.
  destruct (ObjectId_cast s) as [id|]; [|done].
  cbv [mbind mret Async_bind Async_ret get put].
  destruct (db !! id) as [d|]; simpl; [|done]. by case_decide.
Qed.

End owner_queries.

Section owner_listing.
Context {D : Type} (createdBy : D → ObjectId) (createdAt : D → Date).
Implicit Types (db : gmap N D) (id uid : N).

Global Instance newest_first_total : Total (newest_first createdAt).
Proof. intros a b. unfold newest_first. lia. Qed.
Global Instance newest_first_trans : Transitive (newest_first createdAt).
Proof. intros a b c. unfold newest_first. lia. Qed.

(** What [find({ createdBy }).sort({ createdAt: -1 })] returns: the stored
    documents of that owner, each once, newest first. *)
Lemma Model_find_sort_spec db uid :
  ∃ l, Model_find_sort createdBy createdAt uid db = (Returned l, db)
       ∧ l ≡ₚ filter (λ d, createdBy d.2 = uid) (map_to_list db)
       ∧ NoDup l
       ∧ (∀ id d, (id, d) ∈ l ↔ db !! id = Some d ∧ createdBy d = uid)
       ∧ StronglySorted (newest_first createdAt) l.
Proof.
  eexists. split; [reflexivity|].
  assert (merge_sort (newest_first createdAt)
            (filter (λ d, createdBy d.2 = uid) (map_to_list db))
          ≡ₚ filter (λ d, createdBy d.2 = uid) (map_to_list db)) as Hperm
    by apply merge_sort_Permutation.
  split_and!.
  - done.
  - rewrite Hperm. apply NoDup_filter, NoDup_map_to_list.
  - intros id d. rewrite Hperm, list_elem_of_filter, elem_of_map_to_list.
    simpl. naive_solver.
  - apply StronglySorted_merge_sort; apply _.
Qed.

(** Documents with pairwise different creation times have one newest-first
    order. *)
Lemma newest_first_unique (l1 l2 : list (N * D)) :
  (∀ a b, a ∈ l1 → b ∈ l1 → createdAt a.2 = createdAt b.2 → a = b) →
  StronglySorted (newest_first createdAt) l1 →
  StronglySorted (newest_first createdAt) l2 →
  l1 ≡ₚ l2 → l1 = l2.
Proof.
  intros Hdistinct Hs1 Hs2 Hperm.
  apply (StronglySorted_unique_strong (newest_first createdAt));
    [|done..].
  intros a b Ha Hb Hab Hba. apply Hdistinct; [done| |].
  - by rewrite Hperm.
  - unfold newest_first in *. lia.
Qed.

(** Three insertions by one owner at increasing times, into a store where
    that owner had nothing, are listed in the reverse of insertion order. *)
Lemma Model_find_sort_three db uid id1 id2 id3 (d1 d2 d3 : D) :
  (∀ id d, db !! id = Some d → createdBy d ≠ uid) →
  db !! id1 = None →
  <[id1 := d1]> db !! id2 = None →
  <[id2 := d2]> (<[id1 := d1]> db) !! id3 = None →
  createdBy d1 = uid → createdBy d2 = uid → createdBy d3 = uid →
  createdAt d1 < createdAt d2 → createdAt d2 < createdAt d3 →
  let db3 := <[id3 := d3]> (<[id2 := d2]> (<[id1 := d1]> db)) in
  Model_find_sort createdBy createdAt uid db3
  = (Returned [(id3, d3); (id2, d2); (id1, d1)], db3).
Proof.
  intros Hnone H1 H2 H3 Ho1 Ho2 Ho3 Ht12 Ht23 db3.
  destruct (Model_find_sort_spec db3 uid)
    as (l & -> & Hperm & _ & _ & Hsorted).
  f_equal. f_equal. symmetry.
  apply newest_first_unique; [| |done|].
  - intros a b Ha Hb. rewrite !elem_of_cons, elem_of_nil in Ha, Hb.
    destruct Ha as [->|[->|[->|[]]]], Hb as [->|[->|[->|[]]]];
      simpl; intros; (done || lia).
  - repeat constructor; unfold newest_first; simpl; lia.
  - rewrite Hperm. unfold db3.
    rewrite !map_to_list_insert by done.
    rewrite !filter_cons. simpl.
    rewrite !decide_True by done.
    replace (filter _ (map_to_list db)) with (@nil (N * D)); [done|].
    symmetry. apply elem_of_nil_inv.
    intros [id d] [Ho Hin%elem_of_map_to_list]%list_elem_of_filter.
    by destruct (Hnone id d).
Qed.

End owner_listing.

(** ** routes/income.js, handler by handler *)

Section income.
Context `{Runtime}.
Implicit Types (db : gmap N Income.t) (uid id : N) (s : string).

Lemma Income_get_id_run uid s f fs db :
  IncomeRouter.get_id (authenticated_request uid s tt f fs) db =
    match ObjectId_cast s with
    | None =>
        (res_status_json 500
           (Message (error_message (CastError "ObjectId" s "_id" "Income"))),
         db)
    | Some id =>
        match owned Income.createdBy db id uid with
        | Some d => (res_json (Document (id, d)), db)
        | None =>
            (res_status_json 404 (Message "Income record not found"), db)
        end
    end.
Proof.
  unfold IncomeRouter.get_id, authenticated_request.
  cbv [try_catch mbind Async_bind settle req_user_userId]. cbn [user userId params].
  rewrite Model_findOne_owned. destruct (ObjectId_cast s) as [id|]; [|done].
  by destruct (owned _ _ _ _).
Qed.

Lemma Income_delete_id_run uid s f fs db :
  IncomeRouter.delete_id (authenticated_request uid s tt f fs) db =
    match ObjectId_cast s with
    | None =>
        (res_status_json 500
           (Message (error_message (CastError "ObjectId" s "_id" "Income"))),
         db)
    | Some id =>
        match owned Income.createdBy db id uid with
        | Some d =>
            (res_json (Message "Income record deleted successfully"),
             delete id db)
        | None =>
            (res_status_json 404 (Message "Income record not found"), db)
        end
    end.
Proof.
  unfold IncomeRouter.delete_id, authenticated_request.
  cbv [try_catch mbind Async_bind settle req_user_userId]. cbn [user userId params].
  rewrite Model_findOneAndDelete_owned.
  destruct (ObjectId_cast s) as [id|]; [|done]. by destruct (owned _ _ _ _).
Qed.

Lemma Income_put_id_run w uid s form f fs db :
  IncomeRouter.put_id w (authenticated_request uid s form f fs) db =
    match ObjectId_cast s with
    | None =>
        (res_status_json 400
           (Message (error_message (CastError "ObjectId" s "_id" "Income"))),
         db)
    | Some id =>
        match owned Income.createdBy db id uid with
        | None =>
            (res_status_json 404 (Message "Income record not found"), db)
        | Some d =>
            match cast_Number (JString <$> IncomeRouter.amount form) with
            | Value a =>
                (res_json (Document (id, Income_updated w form f a d)),
                 <[id := Income_updated w form f a d]> db)
            | c =>
                (res_status_json 400
                   (Message (error_message
                               (ValidationError "Income"
                                  (required_Number "amount" c)))), db)
            end
        end
    end.
Proof.
  unfold IncomeRouter.put_id, authenticated_request.
  cbv [try_catch mbind Async_bind settle req_user_userId]. cbn [user userId params].
  rewrite Model_findOne_owned. destruct (ObjectId_cast s) as [id|]; [|done].
  destruct (owned _ _ _ _) as [d|]; [|done].
  cbn [fmap option_fmap option_map body file].
  unfold Income.save, Income.validate.
  destruct f as [f|]; cbn [Income.doc_amount Income.set_slip Income.set_notes
                           Income.set_amount Income.hydrate];
    destruct (cast_Number _); done.
Qed.

Lemma Income_post_run w uid form f fs db :
  IncomeRouter.post w (authenticated_request uid tt form f fs) db =
    match cast_Number (JString <$> IncomeRouter.amount form) with
    | Value a =>
        (res_status_json 201
           (Document (fresh (dom db), Income_created w uid form f a)),
         <[fresh (dom db) := Income_created w uid form f a]> db)
    | c =>
        (res_status_json 400
           (Message (error_message
                       (ValidationError "Income"
                          (required_Number "amount" c)))), db)
    end.
Proof.
  unfold IncomeRouter.post, authenticated_request.
  cbv [try_catch mbind Async_bind settle req_user_userId Income.new get mret
       Async_ret].
  cbn [user userId params body file].
  unfold Income.save, Income.validate. cbn [Income.doc_amount].
  destruct (cast_Number _); done.
Qed.

End income.

(** ** models/Expense.js: what validation accepts *)

Section expense_validation.
Context `{Runtime}.

Lemma required_Number_nil path_ (c : Cast number) :
  required_Number path_ c = [] ↔ ∃ a, c = Value a.
Proof. destruct c; simpl; naive_solver. Qed.

Lemma required_String_nil path_ (c : Cast string) :
  required_String path_ c = [] ↔ ∃ s, c = Value s ∧ s ≠ EmptyString.
Proof. destruct c; simpl; [|case_decide|]; naive_solver. Qed.

Lemma validate_item_nil i it :
  Expense.validate_item i it = [] ↔ acceptable_item it.
Proof.
  unfold Expense.validate_item, acceptable_item.
  rewrite app_nil, required_String_nil, required_Number_nil. done.
Qed.

Lemma validate_element_nil i el :
  Expense.validate_element i el = [] ↔ acceptable_element el.
Proof. destruct el as [it|v]; simpl; [apply validate_item_nil|done]. Qed.

Lemma concat_imap_nil {A B} (f : nat → A → list B) (P : A → Prop) l :
  (∀ i x, f i x = [] ↔ P x) →
  concat (imap f l) = [] ↔ Forall P l.
Proof.
  revert f. induction l as [|x l IH]; intros f Hf; simpl.
  - split; [constructor|done].
  - rewrite app_nil, Forall_cons, Hf, (IH (f ∘ S)); [done|].
    intros i y. apply Hf.
Qed.

Lemma Expense_validate_nil (d : Expense.Doc) :
  Expense.validate d = []
  ↔ acceptable_items (Expense.doc_items d)
    ∧ ∃ a, Expense.doc_totalAmount d = Value a.
Proof.
  unfold Expense.validate. rewrite app_nil, required_Number_nil.
  destruct (Expense.doc_items d) as [|its|]; simpl.
  - naive_solver.
  - by rewrite (concat_imap_nil _ acceptable_element)
      by apply validate_element_nil.
  - naive_solver.
Qed.

Lemma item_value_acceptable it :
  acceptable_item it → is_Some (Expense.item_value it).
Proof. intros [(s & Hs & _) (a & Ha)]. destruct it; simplify_eq/=. eauto. Qed.

Lemma element_value_acceptable el :
  acceptable_element el → is_Some (Expense.element_value el).
Proof.
  destruct el as [it|v]; simpl; [|by eauto].
  intros [item Hitem]%item_value_acceptable. rewrite Hitem. by eauto.
Qed.

Lemma items_value_acceptable its :
  acceptable_items its → is_Some (Expense.items_value its).
Proof.
  destruct its as [|its|]; simpl; [by eauto| |done]. intros Hacc.
  assert (is_Some (mapM Expense.element_value its)) as [items_ ->]; [|by eauto].
  apply mapM_is_Some. eapply Forall_impl; [exact Hacc|].
  apply element_value_acceptable.
Qed.

(** [save()] either throws what validation found, leaving the store as it
    was, or stores the accepted values under the document's [_id]. *)
Lemma Expense_save_run (w : Ambient) (d : Expense.Doc)
    (db : gmap N Expense.t) :
  (Expense.validate d ≠ []
   ∧ Expense.save w d db
     = (Thrown (ValidationError "Expense" (Expense.validate d)), db))
  ∨ (∃ items_ total,
       acceptable_items (Expense.doc_items d)
       ∧ Expense.items_value (Expense.doc_items d) = Some items_
       ∧ Expense.doc_totalAmount d = Value total
       ∧ Expense.save w d db
         = (Returned (Expense._id d, Expense_stored w d items_ total),
            <[Expense._id d := Expense_stored w d items_ total]> db)).
Proof.
  destruct (decide (Expense.validate d = [])) as [Hok|Hbad].
  - right. pose proof Hok as (Hacc & total & Htotal)%Expense_validate_nil.
    destruct (items_value_acceptable _ Hacc) as [items_ Hitems].
    exists items_, total. split_and!; try done.
    unfold Expense.save, Expense.values. rewrite Hok, Hitems. simpl.
    by rewrite Htotal.
  - left. split; [done|]. unfold Expense.save.
    by destruct (Expense.validate d).
Qed.

End expense_validation.

(** ** routes/expense.js, handler by handler *)

Section expense.
Context `{Runtime}.
Implicit Types (db : gmap N Expense.t) (uid id : N) (s : string).

Lemma Expense_get_id_run uid s f fs db :
  ExpenseRouter.get_id (authenticated_request uid s tt f fs) db =
    match ObjectId_cast s with
    | None =>
        (res_status_json 500
           (Message (error_message (CastError "ObjectId" s "_id" "Expense"))),
         db)
    | Some id =>
        match owned Expense.createdBy db id uid with
        | Some d => (res_json (Document (id, d)), db)
        | None => (res_status_json 404 (Message "Expense not found"), db)
        end
    end.
Proof.
  unfold ExpenseRouter.get_id, authenticated_request.
  cbv [try_catch mbind Async_bind settle req_user_userId].
  cbn [user userId params].
  rewrite Model_findOne_owned. destruct (ObjectId_cast s) as [id|]; [|done].
  by destruct (owned _ _ _ _).
Qed.

Lemma Expense_delete_id_run uid s f fs db :
  ExpenseRouter.delete_id (authenticated_request uid s tt f fs) db =
    match ObjectId_cast s with
    | None =>
        (res_status_json 500
           (Message (error_message (CastError "ObjectId" s "_id" "Expense"))),
         db)
    | Some id =>
        match owned Expense.createdBy db id uid with
        | Some d =>
            (res_json (Message "Expense deleted successfully"), delete id db)
        | None => (res_status_json 404 (Message "Expense not found"), db)
        end
    end.
Proof.
  unfold ExpenseRouter.delete_id, authenticated_request.
  cbv [try_catch mbind Async_bind settle req_user_userId].
  cbn [user userId params].
  rewrite Model_findOneAndDelete_owned.
  destruct (ObjectId_cast s) as [id|]; [|done]. by destruct (owned _ _ _ _).
Qed.

(** A creation whose [items] text does not parse is answered before the
    request's user or the store is looked at. *)
Lemma Expense_post_unparsed w (req : Request unit ExpenseRouter.Form) db e :
  JSON_parse_value (ExpenseRouter.items (body req)) = Thrown e →
  ExpenseRouter.post w req db
  = (res_status_json 400 (Message (error_message e)), db).
Proof.
  intros Hparse. unfold ExpenseRouter.post.
  cbv [try_catch mbind Async_bind settle]. by rewrite Hparse.
Qed.

Lemma Expense_post_parsed w uid form f fs db j :
  JSON_parse_value (ExpenseRouter.items form) = Returned j →
  ExpenseRouter.post w (authenticated_request uid tt form f fs) db =
    match
      Expense.save w
        {| Expense._id := fresh (dom db);
           Expense.doc_items := Expense.cast_items j;
           Expense.doc_totalAmount :=
             cast_Number (JString <$> ExpenseRouter.totalAmount form);
           Expense.doc_images := uploaded fs;
           Expense.doc_notes := ExpenseRouter.notes form;
           Expense.doc_createdBy := uid;
           Expense.doc_createdAt := None |} db
    with
    | (Returned r, db') => (res_status_json 201 (Document r), db')
    | (Thrown e, db') => (res_status_json 400 (Message (error_message e)), db')
    end.
Proof.
  intros Hparse. unfold ExpenseRouter.post, authenticated_request.
  cbv [try_catch mbind Async_bind settle req_user_userId Expense.new get mret
       Async_ret].
  cbn [user userId params body files]. rewrite Hparse.
  unfold uploaded. by destruct (Expense.save _ _ _) as [[r|e] db'].
Qed.

Lemma Expense_post_accepted w uid form f fs db its total :
  Expense_accepts form its total →
  ∃ items_,
    Expense.items_value its = Some items_
    ∧ ExpenseRouter.post w (authenticated_request uid tt form f fs) db
      = (res_status_json 201
           (Document (fresh (dom db),
                      Expense_created w uid form fs items_ total)),
         <[fresh (dom db) := Expense_created w uid form fs items_ total]> db).
Proof.
  intros [(j & Hparse & Hcast) [Hacc Htotal]].
  rewrite (Expense_post_parsed _ _ _ _ _ _ j Hparse).
  match goal with |- context [Expense.save w ?d db] =>
    destruct (Expense_save_run w d db)
      as [[Hbad _]|(items_ & total' & _ & Hvalues & Ht & ->)]
  end.
  - destruct Hbad. apply Expense_validate_nil. simpl. rewrite Hcast. eauto.
  - simpl in Hvalues, Ht. assert (total' = total) as -> by congruence.
    rewrite Hcast in Hvalues.
    exists items_. split; [done|]. reflexivity.
Qed.

Lemma Expense_post_rejected w uid form f fs db :
  (∀ its total, ¬ Expense_accepts form its total) →
  ∃ e, ExpenseRouter.post w (authenticated_request uid tt form f fs) db
       = (res_status_json 400 (Message (error_message e)), db)
       ∧ (∀ j, JSON_parse_value (ExpenseRouter.items form) = Returned j →
            ∃ errors, errors ≠ [] ∧ e = ValidationError "Expense" errors).
Proof.
  intros Hrej.
  destruct (JSON_parse_value (ExpenseRouter.items form)) as [j|e] eqn:Hparse.
  - rewrite (Expense_post_parsed _ _ _ _ _ _ j Hparse).
    match goal with |- context [Expense.save w ?d db] =>
      destruct (Expense_save_run w d db)
        as [[Hbad ->]|(items_ & total & Hacc & _ & Ht & _)]
    end.
    + eexists. split; [reflexivity|]. intros _ _. eauto.
    + simpl in Hacc, Ht. destruct (Hrej (Expense.cast_items j) total).
      split_and!; eauto.
  - exists e. split; [by apply Expense_post_unparsed|]. by intros j.
Qed.

Lemma Expense_put_id_malformed w uid s form f fs db :
  ObjectId_cast s = None →
  ExpenseRouter.put_id w (authenticated_request uid s form f fs) db
  = (res_status_json 400
       (Message (error_message (CastError "ObjectId" s "_id" "Expense"))),
     db).
Proof.
  intros Hs. unfold ExpenseRouter.put_id, authenticated_request.
  cbv [try_catch mbind Async_bind settle req_user_userId].
  cbn [user userId params]. by rewrite Model_findOne_owned, Hs.
Qed.

Lemma Expense_put_id_missing w uid s id form f fs db :
  ObjectId_cast s = Some id →
  owned Expense.createdBy db id uid = None →
  ExpenseRouter.put_id w (authenticated_request uid s form f fs) db
  = (res_status_json 404 (Message "Expense not found"), db).
Proof.
  intros Hs Hnone. unfold ExpenseRouter.put_id, authenticated_request.
  cbv [try_catch mbind Async_bind settle req_user_userId].
  cbn [user userId params]. by rewrite Model_findOne_owned, Hs, Hnone.
Qed.

Lemma Expense_put_id_unparsed w uid s id form f fs db d e :
  ObjectId_cast s = Some id →
  owned Expense.createdBy db id uid = Some d →
  JSON_parse_value (ExpenseRouter.items form) = Thrown e →
  ExpenseRouter.put_id w (authenticated_request uid s form f fs) db
  = (res_status_json 400 (Message (error_message e)), db).
Proof.
  intros Hs Hd Hparse. unfold ExpenseRouter.put_id, authenticated_request.
  cbv [try_catch mbind Async_bind settle req_user_userId].
  cbn [user userId params body]. rewrite Model_findOne_owned, Hs, Hd. simpl.
  by rewrite Hparse.
Qed.

Lemma Expense_put_id_parsed w uid s id form f fs db d j :
  ObjectId_cast s = Some id →
  owned Expense.createdBy db id uid = Some d →
  JSON_parse_value (ExpenseRouter.items form) = Returned j →
  ExpenseRouter.put_id w (authenticated_request uid s form f fs) db =
    match
      Expense.save w
        {| Expense._id := id;
           Expense.doc_items := Expense.cast_items j;
           Expense.doc_totalAmount :=
             cast_Number (JString <$> ExpenseRouter.totalAmount form);
           Expense.doc_images := Expense.images d ++ uploaded fs;
           Expense.doc_notes := ExpenseRouter.notes form;
           Expense.doc_createdBy := Expense.createdBy d;
           Expense.doc_createdAt := Some (Expense.createdAt d) |} db
    with
    | (Returned r, db') => (res_json (Document r), db')
    | (Thrown e, db') => (res_status_json 400 (Message (error_message e)), db')
    end.
Proof.
  intros Hs Hd Hparse. unfold ExpenseRouter.put_id, authenticated_request.
  cbv [try_catch mbind Async_bind settle req_user_userId].
  cbn [user userId params body files].
  rewrite Model_findOne_owned, Hs, Hd. simpl.
  rewrite Hparse.
  unfold Expense.set_images, Expense.set_notes, Expense.set_totalAmount,
    Expense.set_items, Expense.hydrate, uploaded.
  destruct fs as [[|f0 l]|]; simpl; rewrite ?app_nil_r;
    by destruct (Expense.save _ _ _) as [[r|e] db'].
Qed.

Lemma Expense_put_id_accepted w uid s id form f fs db d its total :
  ObjectId_cast s = Some id →
  owned Expense.createdBy db id uid = Some d →
  Expense_accepts form its total →
  ∃ items_,
    Expense.items_value its = Some items_
    ∧ ExpenseRouter.put_id w (authenticated_request uid s form f fs) db
      = (res_json (Document (id, Expense_updated w form fs items_ total d)),
         <[id := Expense_updated w form fs items_ total d]> db).
Proof.
  intros Hs Hd [(j & Hparse & Hcast) [Hacc Htotal]].
  rewrite (Expense_put_id_parsed _ _ _ id _ _ _ _ d j Hs Hd Hparse).
  match goal with |- context [Expense.save w ?doc db] =>
    destruct (Expense_save_run w doc db)
      as [[Hbad _]|(items_ & total' & _ & Hvalues & Ht & ->)]
  end.
  - destruct Hbad. apply Expense_validate_nil. simpl. rewrite Hcast. eauto.
  - simpl in Hvalues, Ht. assert (total' = total) as -> by congruence.
    rewrite Hcast in Hvalues.
    exists items_. split; [done|]. reflexivity.
Qed.

Lemma Expense_put_id_rejected w uid s id form f fs db d :
  ObjectId_cast s = Some id →
  owned Expense.createdBy db id uid = Some d →
  (∀ its total, ¬ Expense_accepts form its total) →
  ∃ e, ExpenseRouter.put_id w (authenticated_request uid s form f fs) db
       = (res_status_json 400 (Message (error_message e)), db).
Proof.
  intros Hs Hd Hrej.
  destruct (JSON_parse_value (ExpenseRouter.items form)) as [j|e] eqn:Hparse.
  - rewrite (Expense_put_id_parsed _ _ _ id _ _ _ _ d j Hs Hd Hparse).
    match goal with |- context [Expense.save w ?doc db] =>
      destruct (Expense_save_run w doc db)
        as [[_ ->]|(items_ & total & Hacc & _ & Ht & _)]
    end.
    + eauto.
    + simpl in Hacc, Ht. destruct (Hrej (Expense.cast_items j) total).
      split_and!; eauto.
  - exists e. by apply (Expense_put_id_unparsed _ _ _ id _ _ _ _ d).
Qed.

End expense.

(** ** Ownership-scoped resources *)

Section listing.
Context `{Runtime}.

Lemma Income_get_all_run uid f fs (db : gmap N Income.t) :
  IncomeRouter.get_all (authenticated_request uid tt tt f fs) db =
    match Model_find_sort Income.createdBy Income.createdAt uid db with
    | (Returned l, db') => (res_json (Documents l), db')
    | (Thrown e, db') => (res_status_json 500 (Message (error_message e)), db')
    end.
Proof. reflexivity. Qed.

Lemma Expense_get_all_run uid f fs (db : gmap N Expense.t) :
  ExpenseRouter.get_all (authenticated_request uid tt tt f fs) db =
    match Model_find_sort Expense.createdBy Expense.createdAt uid db with
    | (Returned l, db') => (res_json (Documents l), db')
    | (Thrown e, db') => (res_status_json 500 (Message (error_message e)), db')
    end.
Proof. reflexivity. Qed.

(** A subdocument of [items] that validation rejects. *)
Lemma unacceptable_items its :
  its = Invalid
  ∨ (∃ l, its = Value l
          ∧ Exists (λ el, ∃ it, el = Expense.Subdocument it
                                ∧ ¬ acceptable_item it) l) →
  ¬ acceptable_items its.
Proof.
  intros [->|(l & -> & Hex)]; [exact id|]. simpl. intros Hacc.
  apply Exists_exists in Hex as (el & Hin & it & -> & Hno).
  rewrite Forall_forall in Hacc. apply Hno, (Hacc _ Hin).
Qed.

Lemma Expense_rejected_accepts (form : ExpenseRouter.Form) :
  ExpenseRouter.totalAmount form = None
  ∨ (∀ a, cast_Number (JString <$> ExpenseRouter.totalAmount form) ≠ Value a)
  ∨ (∃ j, JSON_parse_value (ExpenseRouter.items form) = Returned j
          ∧ ¬ acceptable_items (Expense.cast_items j)) →
  ∀ its total, ¬ Expense_accepts form its total.
Proof.
  intros Hbad its total [(j & Hparse & Hcast) [Hacc Htotal]].
  destruct Hbad as [Hnone|[Hnan|(j' & Hparse' & Hno)]].
  - by rewrite Hnone in Htotal.
  - by destruct (Hnan total).
  - assert (j' = j) as -> by congruence. apply Hno. by rewrite Hcast.
Qed.

End listing.

(** C1, as the code has it. For a caller whose token resolved to [uid],
    reading, updating and deleting an income or an expense under a path
    whose text [s] is that of the identifier [id]: when no record has that
    identifier, or the one that has it was created by another user, the
    answer is status 404 with the router's not-found message, the same in
    both cases, and the store is left as it was.  Whatever the text of the
    path, an answer with status 200 means that it is the text of an
    identifier and that the store held a record with that identifier
    created by [uid] (for a read, the record sent).  And under a path whose
    text is not that of an identifier, which no record has, the answer is
    not 404: it is the message of the cast error, with status 500 for a
    read and a deletion and status 400 for an update, the store left as it
    was. *)
Theorem foreign_or_missing_record_not_found `{Runtime} (w : Ambient)
    (uid id : N) (s any malformed : string)
    (iform : IncomeRouter.Form) (eform : ExpenseRouter.Form)
    (f : option File) (fs : option (list File))
    (incomes incomes' : gmap N Income.t)
    (expenses expenses' : gmap N Expense.t) :
  ObjectId_cast s = Some id →
  ObjectId_cast malformed = None →
  (incomes !! id = None
   ∨ ∃ d, incomes !! id = Some d ∧ Income.createdBy d ≠ uid) →
  (expenses !! id = None
   ∨ ∃ d, expenses !! id = Some d ∧ Expense.createdBy d ≠ uid) →
  (IncomeRouter.get_id (authenticated_request uid s tt f fs) incomes
   = (res_status_json 404 (Message "Income record not found"), incomes)
   ∧ IncomeRouter.put_id w (authenticated_request uid s iform f fs) incomes
     = (res_status_json 404 (Message "Income record not found"), incomes)
   ∧ IncomeRouter.delete_id (authenticated_request uid s tt f fs) incomes
     = (res_status_json 404 (Message "Income record not found"), incomes))
  ∧ (ExpenseRouter.get_id (authenticated_request uid s tt f fs) expenses
     = (res_status_json 404 (Message "Expense not found"), expenses)
     ∧ ExpenseRouter.put_id w (authenticated_request uid s eform f fs)
         expenses
       = (res_status_json 404 (Message "Expense not found"), expenses)
     ∧ ExpenseRouter.delete_id (authenticated_request uid s tt f fs)
         expenses
       = (res_status_json 404 (Message "Expense not found"), expenses))
  ∧ ((∀ r db, IncomeRouter.get_id (authenticated_request uid any tt f fs)
                incomes' = (r, db) →
        status r = 200 →
        ∃ id' d, ObjectId_cast any = Some id'
                 ∧ incomes' !! id' = Some d ∧ Income.createdBy d = uid
                 ∧ payload r = Document (id', d))
     ∧ (∀ r db, IncomeRouter.put_id w
                  (authenticated_request uid any iform f fs) incomes'
                = (r, db) →
          status r = 200 →
          ∃ id' d, ObjectId_cast any = Some id'
                   ∧ incomes' !! id' = Some d ∧ Income.createdBy d = uid)
     ∧ (∀ r db, IncomeRouter.delete_id
                  (authenticated_request uid any tt f fs) incomes' = (r, db) →
          status r = 200 →
          ∃ id' d, ObjectId_cast any = Some id'
                   ∧ incomes' !! id' = Some d ∧ Income.createdBy d = uid))
  ∧ ((∀ r db, ExpenseRouter.get_id (authenticated_request uid any tt f fs)
                expenses' = (r, db) →
        status r = 200 →
        ∃ id' d, ObjectId_cast any = Some id'
                 ∧ expenses' !! id' = Some d ∧ Expense.createdBy d = uid
                 ∧ payload r = Document (id', d))
     ∧ (∀ r db, ExpenseRouter.put_id w
                  (authenticated_request uid any eform f fs) expenses'
                = (r, db) →
          status r = 200 →
          ∃ id' d, ObjectId_cast any = Some id'
                   ∧ expenses' !! id' = Some d ∧ Expense.createdBy d = uid)
     ∧ (∀ r db, ExpenseRouter.delete_id
                  (authenticated_request uid any tt f fs) expenses'
                = (r, db) →
          status r = 200 →
          ∃ id' d, ObjectId_cast any = Some id'
                   ∧ expenses' !! id' = Some d ∧ Expense.createdBy d = uid))
  ∧ (IncomeRouter.get_id (authenticated_request uid malformed tt f fs)
       incomes'
     = (res_status_json 500
          (Message (error_message
                      (CastError "ObjectId" malformed "_id" "Income"))),
        incomes')
     ∧ IncomeRouter.put_id w (authenticated_request uid malformed iform f fs)
         incomes'
       = (res_status_json 400
            (Message (error_message
                        (CastError "ObjectId" malformed "_id" "Income"))),
          incomes')
     ∧ IncomeRouter.delete_id (authenticated_request uid malformed tt f fs)
         incomes'
       = (res_status_json 500
            (Message (error_message
                        (CastError "ObjectId" malformed "_id" "Income"))),
          incomes'))
  ∧ (ExpenseRouter.get_id (authenticated_request uid malformed tt f fs)
       expenses'
     = (res_status_json 500
          (Message (error_message
                      (CastError "ObjectId" malformed "_id" "Expense"))),
        expenses')
     ∧ ExpenseRouter.put_id w
         (authenticated_request uid malformed eform f fs) expenses'
       = (res_status_json 400
            (Message (error_message
                        (CastError "ObjectId" malformed "_id" "Expense"))),
          expenses')
     ∧ ExpenseRouter.delete_id (authenticated_request uid malformed tt f fs)
         expenses'
       = (res_status_json 500
            (Message (error_message
                        (CastError "ObjectId" malformed "_id" "Expense"))),
          expenses')).
Proof.
  intros Hs Hbad Hi%owned_None He%owned_None. split_and!.
  - by rewrite Income_get_id_run, Hs, Hi.
  - by rewrite Income_put_id_run, Hs, Hi.
  - by rewrite Income_delete_id_run, Hs, Hi.
  - by rewrite Expense_get_id_run, Hs, He.
  - by apply (Expense_put_id_missing _ _ _ id).
  - by rewrite Expense_delete_id_run, Hs, He.
  - intros r db. rewrite Income_get_id_run.
    destruct (ObjectId_cast any) as [id'|]; [|by intros [= <- <-]].
    destruct (owned _ incomes' id' uid) as [d|] eqn:Hd;
      intros [= <- <-] Hok; [|done].
    apply owned_Some in Hd as [??]. exists id', d. by split_and!.
  - intros r db. rewrite Income_put_id_run.
    destruct (ObjectId_cast any) as [id'|]; [|by intros [= <- <-]].
    destruct (owned _ incomes' id' uid) as [d|] eqn:Hd;
      [|by intros [= <- <-]].
    apply owned_Some in Hd as [??]. by exists id', d.
  - intros r db. rewrite Income_delete_id_run.
    destruct (ObjectId_cast any) as [id'|]; [|by intros [= <- <-]].
    destruct (owned _ incomes' id' uid) as [d|] eqn:Hd;
      [|by intros [= <- <-]].
    apply owned_Some in Hd as [??]. by exists id', d.
  - intros r db. rewrite Expense_get_id_run.
    destruct (ObjectId_cast any) as [id'|]; [|by intros [= <- <-]].
    destruct (owned _ expenses' id' uid) as [d|] eqn:Hd;
      intros [= <- <-] Hok; [|done].
    apply owned_Some in Hd as [??]. exists id', d. by split_and!.
  - intros r db.
    destruct (ObjectId_cast any) as [id'|] eqn:Hany.
    2:{ rewrite Expense_put_id_malformed by done. by intros [= <- <-]. }
    destruct (owned Expense.createdBy expenses' id' uid) as [d|] eqn:Hd.
    + apply owned_Some in Hd as [??]. by exists id', d.
    + rewrite (Expense_put_id_missing _ _ _ id') by done. by intros [= <- <-].
  - intros r db. rewrite Expense_delete_id_run.
    destruct (ObjectId_cast any) as [id'|]; [|by intros [= <- <-]].
    destruct (owned _ expenses' id' uid) as [d|] eqn:Hd;
      [|by intros [= <- <-]].
    apply owned_Some in Hd as [??]. by exists id', d.
  - by rewrite Income_get_id_run, Hbad.
  - by rewrite Income_put_id_run, Hbad.
  - by rewrite Income_delete_id_run, Hbad.
  - by rewrite Expense_get_id_run, Hbad.
  - by apply Expense_put_id_malformed.
  - by rewrite Expense_delete_id_run, Hbad.
Qed.

(** C9. A creation of an expense whose [items] field is absent, or is text
    that [JSON.parse] rejects, is answered with status 400 and the message
    of the SyntaxError, and the stored expenses are left as they were. *)
Theorem expense_create_unparseable_items `{Runtime} (w : Ambient)
    (req : Request unit ExpenseRouter.Form) (db : gmap N Expense.t) :
  (ExpenseRouter.items (body req) = None
   ∨ ∃ text, ExpenseRouter.items (body req) = Some text
             ∧ JSON_parse text = None) →
  ∃ text,
    ExpenseRouter.post w req db
    = (res_status_json 400 (Message (error_message (SyntaxError text))), db).
Proof.
  intros [Habsent|(text & Htext & Hparse)].
  - exists "undefined". apply Expense_post_unparsed. by rewrite Habsent.
  - exists text. apply Expense_post_unparsed. rewrite Htext. simpl.
    by rewrite Hparse.
Qed.

(** C10. An update of an income that carries no slip file leaves the slip
    reference of every stored income as it was, whatever else the request
    holds and however it is answered; when it is answered with status 200,
    the record stored under the identifier of the path has the amount and
    the notes of the form. *)
Theorem income_update_without_file_keeps_slip `{Runtime} (w : Ambient)
    (u : option AuthUser) (s : string) (form : IncomeRouter.Form)
    (fs : option (list File)) (db : gmap N Income.t) :
  let req := {| user := u; params := s; body := form;
                file := None; files := fs |} in
  (∀ i, Income.slip <$> (IncomeRouter.put_id w req db).2 !! i
        = Income.slip <$> db !! i)
  ∧ (status (IncomeRouter.put_id w req db).1 = 200 →
     ∃ id d, ObjectId_cast s = Some id
             ∧ (IncomeRouter.put_id w req db).2 !! id = Some d
             ∧ cast_Number (JString <$> IncomeRouter.amount form)
               = Value (Income.amount d)
             ∧ Income.notes d = IncomeRouter.notes form).
Proof.
  intros req. destruct u as [[uid]|]; [|by split].
  change req with (authenticated_request uid s form None fs).
  rewrite Income_put_id_run.
  destruct (ObjectId_cast s) as [id|]; [|by split].
  destruct (owned Income.createdBy db id uid) as [d|] eqn:Hd; [|by split].
  apply owned_Some in Hd as [Hd _].
  destruct (cast_Number _) as [|a|]; [by split| |by split]. simpl. split.
  - intros i. destruct (decide (i = id)) as [->|Hne].
    + by rewrite lookup_insert_eq, Hd.
    + by rewrite lookup_insert_ne.
  - intros _. eexists id, _. by rewrite lookup_insert_eq.
Qed.

(** C3, as the code has it. A creation of an expense is answered with
    status 400, the thrown error's message (that of the validation error
    when [items] parsed) and no stored record when [totalAmount] is missing
    or is not numeric, when the parsed [items] does not cast to an array of
    subdocuments, or when a subdocument of it lacks a non-empty
    [description] or a numeric [amount]; it is answered with status 201 and
    stored when [totalAmount] is numeric and [items] parses to null or to
    an array whose subdocuments all have both, whether or not there is any:
    an empty [items] is accepted and stored as empty, a null one as null,
    and an element that is null is stored as it is. *)
Theorem expense_create_validation `{Runtime} (w : Ambient) (uid : N)
    (rejected accepted : ExpenseRouter.Form)
    (f : option File) (fs : option (list File)) (db : gmap N Expense.t)
    (its : Cast (list (Expense.Element (Cast string * Cast number))))
    (total : number) :
  (ExpenseRouter.totalAmount rejected = None
   ∨ (∀ a, cast_Number (JString <$> ExpenseRouter.totalAmount rejected)
           ≠ Value a)
   ∨ (∃ j, JSON_parse_value (ExpenseRouter.items rejected) = Returned j
           ∧ (Expense.cast_items j = Invalid
              ∨ ∃ l, Expense.cast_items j = Value l
                     ∧ Exists (λ el, ∃ it, el = Expense.Subdocument it
                                           ∧ ¬ acceptable_item it) l))) →
  (∃ j, JSON_parse_value (ExpenseRouter.items accepted) = Returned j
        ∧ Expense.cast_items j = its) →
  acceptable_items its →
  cast_Number (JString <$> ExpenseRouter.totalAmount accepted) = Value total →
  (∃ e, ExpenseRouter.post w (authenticated_request uid tt rejected f fs) db
        = (res_status_json 400 (Message (error_message e)), db)
        ∧ (∀ j, JSON_parse_value (ExpenseRouter.items rejected) = Returned j →
             ∃ errors, errors ≠ [] ∧ e = ValidationError "Expense" errors))
  ∧ (∃ id items_,
       db !! id = None
       ∧ Expense.items_value its = Some items_
       ∧ ExpenseRouter.post w (authenticated_request uid tt accepted f fs) db
         = (res_status_json 201
              (Document (id, Expense_created w uid accepted fs items_ total)),
            <[id := Expense_created w uid accepted fs items_ total]> db)
       ∧ (its = Value [] → items_ = Some [])
       ∧ (its = Nullish → items_ = None)
       ∧ (its = Value [Expense.Uncast JNull]
          → items_ = Some [Expense.Uncast JNull])).
Proof.
  intros Hbad Hparse Hacc Htotal. split.
  - apply Expense_post_rejected, Expense_rejected_accepts.
    destruct Hbad as [?|[?|(j & Hj & Hno)]]; [by left|by right; left|].
    right; right. exists j. split; [done|]. by apply unacceptable_items.
  - destruct (Expense_post_accepted w uid accepted f fs db its total)
      as (items_ & Hitems & Hpost); [done|].
    exists (fresh (dom db)), items_. split_and!; try done.
    + apply fresh_id_unused.
    + intros ->. by injection Hitems as <-.
    + intros ->. by injection Hitems as <-.
    + intros ->. by injection Hitems as <-.
Qed.

(** C6, as the code has it. For an update of an income or an expense that
    the caller created, under a path whose text is that of its identifier:
    when the form is accepted (a numeric [amount]; for an expense, a
    numeric [totalAmount] and [items] that parse to null or to an array
    whose subdocuments all have a non-empty [description] and a numeric
    [amount]) the answer is status 200 and the stored record takes its
    mutable fields from the form, an expense's new image references are
    appended to those it had, an income's slip reference is replaced when a
    file was uploaded, and [createdBy] and [createdAt] are as before; when
    the form is not accepted the answer is status 400 and the store is left
    as it was. *)
Theorem update_replaces_fields_keeps_owner `{Runtime} (w : Ambient)
    (uid id : N) (s : string)
    (iform : IncomeRouter.Form) (eform : ExpenseRouter.Form)
    (f : option File) (fs : option (list File))
    (incomes : gmap N Income.t) (expenses : gmap N Expense.t)
    (di : Income.t) (de : Expense.t) :
  ObjectId_cast s = Some id →
  incomes !! id = Some di → Income.createdBy di = uid →
  expenses !! id = Some de → Expense.createdBy de = uid →
  ((∃ a stored,
      cast_Number (JString <$> IncomeRouter.amount iform) = Value a
      ∧ IncomeRouter.put_id w (authenticated_request uid s iform f fs)
          incomes
        = (res_json (Document (id, stored)), <[id := stored]> incomes)
      ∧ Income.amount stored = a
      ∧ Income.notes stored = IncomeRouter.notes iform
      ∧ Income.slip stored
        = (if f is Some f then Some (IncomeRouter.reference f)
           else Income.slip di)
      ∧ Income.createdBy stored = Income.createdBy di
      ∧ Income.createdAt stored = Income.createdAt di)
   ∨ ((∀ a, cast_Number (JString <$> IncomeRouter.amount iform) ≠ Value a)
      ∧ ∃ e, IncomeRouter.put_id w (authenticated_request uid s iform f fs)
               incomes
             = (res_status_json 400 (Message (error_message e)), incomes)))
  ∧ ((∃ its total stored,
        Expense_accepts eform its total
        ∧ ExpenseRouter.put_id w (authenticated_request uid s eform f fs)
            expenses
          = (res_json (Document (id, stored)), <[id := stored]> expenses)
        ∧ Expense.items_value its = Some (Expense.items stored)
        ∧ Expense.totalAmount stored = total
        ∧ Expense.notes stored = ExpenseRouter.notes eform
        ∧ Expense.images stored
          = Expense.images de
            ++ (if fs is Some l then map ExpenseRouter.reference l else [])
        ∧ Expense.createdBy stored = Expense.createdBy de
        ∧ Expense.createdAt stored = Expense.createdAt de)
     ∨ ((∀ its total, ¬ Expense_accepts eform its total)
        ∧ ∃ e, ExpenseRouter.put_id w
                 (authenticated_request uid s eform f fs) expenses
               = (res_status_json 400 (Message (error_message e)),
                  expenses))).
Proof.
  intros Hs Hi Hoi He Hoe.
  assert (owned Income.createdBy incomes id uid = Some di) as Hdi
    by by apply owned_Some.
  assert (owned Expense.createdBy expenses id uid = Some de) as Hde
    by by apply owned_Some.
  split.
  - rewrite Income_put_id_run, Hs, Hdi.
    destruct (cast_Number _) as [|a|] eqn:Hcast.
    + right. split; [done|]. eauto.
    + left. exists a, (Income_updated w iform f a di). by split_and!.
    + right. split; [done|]. eauto.
  - destruct (JSON_parse_value (ExpenseRouter.items eform))
      as [j|e] eqn:Hparse.
    2:{ right. split.
        - intros its total [(j & Hj & _) _]. congruence.
        - exists e. by apply (Expense_put_id_unparsed _ _ _ id _ _ _ _ de). }
    rewrite (Expense_put_id_parsed _ _ _ id _ _ _ _ de j Hs Hde Hparse).
    match goal with |- context [Expense.save w ?doc expenses] =>
      destruct (Expense_save_run w doc expenses)
        as [[Hbad ->]|(items_ & total & Hacc & Hitems & Ht & ->)]
    end.
    + right. split; [|eauto].
      intros its total [(j' & Hj' & Hc') [Hacc Ht]].
      assert (j' = j) as -> by congruence.
      apply Hbad, Expense_validate_nil. simpl. rewrite Hc'. eauto.
    + left. simpl in Hacc, Hitems, Ht.
      exists (Expense.cast_items j), total,
        (Expense_updated w eform fs items_ total de).
      split_and!; try done. split_and!; eauto.
Qed.

(** C8. Listing the incomes, or the expenses, of the caller whose token
    resolved to [uid] answers with exactly the stored records created by
    [uid], each once, sorted by [createdAt] from the newest to the oldest;
    and after three creations by [uid] at increasing times, in a store where
    [uid] had no record, the listing is the three created records in the
    reverse of the order of creation. *)
Theorem listing_is_owned_newest_first `{Runtime} (uid : N)
    (f : option File) (fs : option (list File))
    (incomes incomes0 : gmap N Income.t)
    (expenses expenses0 : gmap N Expense.t)
    (w1 w2 w3 : Ambient)
    (iform1 iform2 iform3 : IncomeRouter.Form) (a1 a2 a3 : number)
    (eform1 eform2 eform3 : ExpenseRouter.Form)
    (its1 its2 its3
       : Cast (list (Expense.Element (Cast string * Cast number))))
    (total1 total2 total3 : number) :
  Date_now w1 < Date_now w2 → Date_now w2 < Date_now w3 →
  (∀ id d, incomes0 !! id = Some d → Income.createdBy d ≠ uid) →
  cast_Number (JString <$> IncomeRouter.amount iform1) = Value a1 →
  cast_Number (JString <$> IncomeRouter.amount iform2) = Value a2 →
  cast_Number (JString <$> IncomeRouter.amount iform3) = Value a3 →
  (∀ id d, expenses0 !! id = Some d → Expense.createdBy d ≠ uid) →
  Expense_accepts eform1 its1 total1 →
  Expense_accepts eform2 its2 total2 →
  Expense_accepts eform3 its3 total3 →
  (∃ l, IncomeRouter.get_all (authenticated_request uid tt tt f fs) incomes
        = (res_json (Documents l), incomes)
        ∧ (∀ id d, (id, d) ∈ l
                   ↔ incomes !! id = Some d ∧ Income.createdBy d = uid)
        ∧ NoDup l
        ∧ StronglySorted (newest_first Income.createdAt) l)
  ∧ (∃ l, ExpenseRouter.get_all (authenticated_request uid tt tt f fs)
            expenses
          = (res_json (Documents l), expenses)
          ∧ (∀ id d, (id, d) ∈ l
                     ↔ expenses !! id = Some d ∧ Expense.createdBy d = uid)
          ∧ NoDup l
          ∧ StronglySorted (newest_first Expense.createdAt) l)
  ∧ (∃ r1 r2 r3 db1 db2 db3,
       IncomeRouter.post w1 (authenticated_request uid tt iform1 f fs)
         incomes0 = (res_status_json 201 (Document r1), db1)
       ∧ IncomeRouter.post w2 (authenticated_request uid tt iform2 f fs) db1
         = (res_status_json 201 (Document r2), db2)
       ∧ IncomeRouter.post w3 (authenticated_request uid tt iform3 f fs) db2
         = (res_status_json 201 (Document r3), db3)
       ∧ IncomeRouter.get_all (authenticated_request uid tt tt f fs) db3
         = (res_json (Documents [r3; r2; r1]), db3))
  ∧ (∃ r1 r2 r3 db1 db2 db3,
       ExpenseRouter.post w1 (authenticated_request uid tt eform1 f fs)
         expenses0 = (res_status_json 201 (Document r1), db1)
       ∧ ExpenseRouter.post w2 (authenticated_request uid tt eform2 f fs) db1
         = (res_status_json 201 (Document r2), db2)
       ∧ ExpenseRouter.post w3 (authenticated_request uid tt eform3 f fs) db2
         = (res_status_json 201 (Document r3), db3)
       ∧ ExpenseRouter.get_all (authenticated_request uid tt tt f fs) db3
         = (res_json (Documents [r3; r2; r1]), db3)).
Proof.
  intros Ht12 Ht23 Hnone Ha1 Ha2 Ha3 Hnone' He1 He2 He3. split_and!.
  - rewrite Income_get_all_run.
    destruct (Model_find_sort_spec Income.createdBy Income.createdAt
                incomes uid) as (l & -> & _ & Hnodup & Hmem & Hsorted).
    by exists l.
  - rewrite Expense_get_all_run.
    destruct (Model_find_sort_spec Expense.createdBy Expense.createdAt
                expenses uid) as (l & -> & _ & Hnodup & Hmem & Hsorted).
    by exists l.
  - do 6 eexists. split_and!.
    + rewrite Income_post_run, Ha1. reflexivity.
    + rewrite Income_post_run, Ha2. reflexivity.
    + rewrite Income_post_run, Ha3. reflexivity.
    + rewrite Income_get_all_run, Model_find_sort_three;
        [done|done|apply fresh_id_unused..|done|done|done|done|done].
  - destruct (Expense_post_accepted w1 uid eform1 f fs expenses0 its1 total1)
      as (items1 & _ & Hp1); [done|].
    set (db1 := <[fresh (dom expenses0) := _]> expenses0) in Hp1.
    destruct (Expense_post_accepted w2 uid eform2 f fs db1 its2 total2)
      as (items2 & _ & Hp2); [done|].
    set (db2 := <[fresh (dom db1) := _]> db1) in Hp2.
    destruct (Expense_post_accepted w3 uid eform3 f fs db2 its3 total3)
      as (items3 & _ & Hp3); [done|].
    do 6 eexists. split_and!; [exact Hp1|exact Hp2|exact Hp3|].
    rewrite Expense_get_all_run. unfold db2, db1.
    rewrite Model_find_sort_three;
      [done|done|apply fresh_id_unused..|done|done|done|done|done].
Qed.

(** ** The statements at sample inputs *)

Lemma Example_first_id : ObjectId_cast Example.first = Some 1%N.
Proof. reflexivity. Qed.

Lemma Example_malformed_id : ObjectId_cast Example.malformed = None.
Proof. reflexivity. Qed.

Lemma Example_coffee_accepted :
  Expense_accepts Example.coffee
    (Value [Expense.Subdocument
              (Value "coffee", Value (Example.decimal 35 (-1)))])
    (Example.decimal 35 (-1)).
Proof.
  split_and!.
  - eexists. split; reflexivity.
  - repeat constructor; simpl; eauto.
  - reflexivity.
Qed.

(** An expense whose [items] is the text [null] is stored with [items]
    null, and one whose [items] is [[null]] with that one null element. *)
Lemma Example_null_items_stored :
  (status (ExpenseRouter.post Example.morning
             (authenticated_request 7%N tt Example.null_items None None) ∅).1
   = 201
   ∧ Expense.items
       <$> (ExpenseRouter.post Example.morning
              (authenticated_request 7%N tt Example.null_items None None)
              ∅).2 !! 0%N
     = Some None)
  ∧ (status (ExpenseRouter.post Example.morning
               (authenticated_request 7%N tt Example.null_item None None)
               ∅).1
     = 201
     ∧ Expense.items
         <$> (ExpenseRouter.post Example.morning
                (authenticated_request 7%N tt Example.null_item None None)
                ∅).2 !! 0%N
       = Some (Some [Expense.Uncast JNull])).
Proof. split; split; reflexivity. Qed.

(** A login with the right password in a process whose [JWT_SECRET] is not
    set. *)
Lemma Example_login_unconfigured :
  AuthRouter.post_login Example.unconfigured
    (Example.credentials "alice" "wonderland") Example.users
  = (res_status_json 500
       (Message (error_message
                   (Error_new "secretOrPrivateKey must have a value"))),
     Example.users).
Proof. reflexivity. Qed.

Lemma Example_income_form_accepted :
  cast_Number (JString <$> IncomeRouter.amount (Example.income_form "5"))
  = Value (Example.decimal 5 0).
Proof. reflexivity. Qed.

Lemma login_failures_indistinguishable_witness :
  AuthRouter.post_login Example.morning
    (Example.credentials "bob" "builder") ∅
  = (res_status_json 401 (Message "Invalid credentials"), ∅)
  ∧ AuthRouter.post_login Example.noon
      (Example.credentials "alice" "rabbit") Example.users
    = (res_status_json 401 (Message "Invalid credentials"), Example.users).
Proof.
  refine (login_failures_indistinguishable Example.morning Example.noon
            (Example.credentials "bob" "builder")
            (Example.credentials "alice" "rabbit") ∅ Example.users _ _ _).
  - intros id u Hin. by rewrite lookup_empty in Hin.
  - exists 1%N, Example.alice. split; [apply lookup_singleton_eq|done].
  - unfold Example.users. intros id u [_ <-]%lookup_singleton_Some _.
    reflexivity.
Defined.

Lemma register_conflict_on_taken_username_witness :
  AuthRouter.post_create_first_user Example.morning
    (Example.credentials "Alice" "looking-glass") {[ 2%N := Example.Alice ]}
  = (res_status_json 400 (Message "User already exists"),
     {[ 2%N := Example.Alice ]})
  ∧ ∃ id,
      Example.users !! id = None
      ∧ AuthRouter.post_create_first_user Example.morning
          (Example.credentials "Alice" "looking-glass") Example.users
        = (res_status_json 201 (Message "User created successfully"),
           <[id := {| User.username := "Alice";
                      User.password :=
                        Reference.hash "looking-glass"
                          (genSalt Example.morning) |}]>
             Example.users).
Proof.
  refine (register_conflict_on_taken_username Example.morning
            (Example.credentials "Alice" "looking-glass")
            {[ 2%N := Example.Alice ]} Example.users _ _).
  - exists 2%N, Example.Alice. split; [apply lookup_singleton_eq|done].
  - unfold Example.users. intros id u [_ <-]%lookup_singleton_Some. done.
Defined.

Lemma register_then_login_witness :
  ∃ id created token,
    Example.users !! id = None
    ∧ AuthRouter.post_create_first_user Example.morning
        (Example.credentials "bob" "builder") Example.users
      = (res_status_json 201 (Message "User created successfully"),
         <[id := created]> Example.users)
    ∧ User.username created = "bob"
    ∧ User.password created
      = Reference.hash "builder" (genSalt Example.morning)
    ∧ String.length (User.password created) = 60%nat
    ∧ (String.length "builder" ≠ 60%nat → User.password created ≠ "builder")
    ∧ AuthRouter.post_login Example.noon
        (Example.credentials "bob" "builder") (<[id := created]> Example.users)
      = (res_status_json 200 (TokenOf token), <[id := created]> Example.users)
    ∧ token_userId token = id
    ∧ token_key token = "s3cret".
Proof.
  refine (register_then_login Example.morning Example.noon
            (Example.credentials "bob" "builder") Example.users "s3cret"
            _ _ _).
  - reflexivity.
  - discriminate.
  - unfold Example.users. intros id u [_ <-]%lookup_singleton_Some. done.
Defined.

Lemma foreign_or_missing_record_not_found_witness :
  (IncomeRouter.get_id (authenticated_request 8%N Example.first tt None None)
     Example.incomes
   = (res_status_json 404 (Message "Income record not found"),
      Example.incomes)
   ∧ ExpenseRouter.delete_id
       (authenticated_request 8%N Example.first tt None None) ∅
     = (res_status_json 404 (Message "Expense not found"), ∅))
  ∧ (∃ d, Example.incomes !! 1%N = Some d ∧ Income.createdBy d = 7%N
          ∧ payload (IncomeRouter.get_id
                       (authenticated_request 7%N Example.first tt None None)
                       Example.incomes).1 = Document (1%N, d))
  ∧ status (ExpenseRouter.put_id Example.morning
              (authenticated_request 7%N Example.malformed Example.coffee
                 None None) Example.expenses).1 = 400.
Proof.
  destruct (foreign_or_missing_record_not_found Example.morning 8%N 1%N
              Example.first Example.first Example.malformed
              (Example.income_form "5") Example.coffee None None
              Example.incomes ∅ ∅ ∅ Example_first_id Example_malformed_id)
    as ((Hget & _ & _) & (_ & _ & Hdelete) & _).
  { right. exists Example.salary. split; [apply lookup_singleton_eq|done]. }
  { left. apply lookup_empty. }
  split; [by split|].
  destruct (foreign_or_missing_record_not_found Example.morning 7%N 1%N
              Example.first Example.first Example.malformed
              (Example.income_form "5") Example.coffee None None
              ∅ Example.incomes ∅ Example.expenses
              Example_first_id Example_malformed_id)
    as (_ & _ & (Hget' & _ & _) & _ & _ & (_ & Hput & _)).
  { left. apply lookup_empty. }
  { left. apply lookup_empty. }
  split; [|by rewrite Hput].
  set (run := IncomeRouter.get_id
                (authenticated_request 7%N Example.first tt None None)
                Example.incomes).
  destruct (Hget' run.1 run.2) as (id' & d & Hid & Hd & Ho & Hp);
    [apply surjective_pairing|reflexivity|].
  rewrite Example_first_id in Hid. injection Hid as <-.
  by exists d.
Defined.

(** A read of an income under the path [xyz], which is not the text of an
    identifier and which no record has, is answered with status 500 and
    the message of the cast error, not with 404. *)
Lemma income_read_malformed_id_answers_500 :
  Example.malformed = "xyz"
  ∧ ObjectId_cast Example.malformed = None
  ∧ IncomeRouter.get_id
      (authenticated_request 7%N Example.malformed tt None None)
      Example.incomes
    = (res_status_json 500
         (Message (error_message
                     (CastError "ObjectId" "xyz" "_id" "Income"))),
       Example.incomes)
  ∧ status (IncomeRouter.get_id
              (authenticated_request 7%N Example.malformed tt None None)
              Example.incomes).1 ≠ 404.
Proof. split_and!; [reflexivity..|discriminate]. Qed.

Lemma expense_create_unparseable_items_witness :
  ∃ text,
    ExpenseRouter.post Example.morning
      (authenticated_request 7%N tt Example.unlisted None None)
      Example.expenses
    = (res_status_json 400 (Message (error_message (SyntaxError text))),
       Example.expenses).
Proof.
  refine (expense_create_unparseable_items Example.morning
            (authenticated_request 7%N tt Example.unlisted None None)
            Example.expenses _).
  by left.
Defined.

Lemma income_update_without_file_keeps_slip_witness :
  let req := authenticated_request 7%N Example.first (Example.income_form "5")
               None None in
  Income.slip <$> (IncomeRouter.put_id Example.noon req Example.incomes).2
                  !! 1%N
  = Some (Some Example.receipt)
  ∧ ∃ d, (IncomeRouter.put_id Example.noon req Example.incomes).2 !! 1%N
         = Some d
         ∧ Income.amount d = Example.decimal 5 0
         ∧ Income.notes d = Some "new".
Proof.
  intros req.
  destruct (income_update_without_file_keeps_slip Example.noon
              (Some {| userId := 7%N |}) Example.first
              (Example.income_form "5") None
              Example.incomes) as [Hslip Hok].
  split.
  - etrans; [apply Hslip|]. unfold Example.incomes.
    by rewrite lookup_singleton_eq.
  - destruct Hok as (id & d & Hid & Hd & Hamount & Hnotes); [reflexivity|].
    rewrite Example_first_id in Hid. injection Hid as <-.
    exists d. split_and!; [exact Hd| |exact Hnotes].
    rewrite Example_income_form_accepted in Hamount. by injection Hamount.
Defined.

Lemma expense_create_validation_witness :
  (∃ e, ExpenseRouter.post Example.morning
          (authenticated_request 7%N tt Example.undescribed None None) ∅
        = (res_status_json 400 (Message (error_message e)), ∅)
        ∧ (∀ j, JSON_parse_value (ExpenseRouter.items Example.undescribed)
                = Returned j →
             ∃ errors, errors ≠ [] ∧ e = ValidationError "Expense" errors))
  ∧ (∃ id items_,
       (∅ : gmap N Expense.t) !! id = None
       ∧ Expense.items_value (Value [Expense.Uncast JNull]) = Some items_
       ∧ ExpenseRouter.post Example.morning
           (authenticated_request 7%N tt Example.null_item None None) ∅
         = (res_status_json 201
              (Document (id, Expense_created Example.morning 7%N
                               Example.null_item None items_
                               (Example.decimal 4 0))),
            <[id := Expense_created Example.morning 7%N Example.null_item
                      None items_ (Example.decimal 4 0)]> ∅)
       ∧ items_ = Some [Expense.Uncast JNull]).
Proof.
  destruct (@expense_create_validation Reference.runtime Example.morning 7%N
              Example.undescribed Example.null_item None None ∅
              (Value [Expense.Uncast JNull]) (Example.decimal 4 0))
    as [Hrejected Haccepted].
  - right; right.
    exists (JArray [JObject [("amount", JNumber (Example.decimal 3 0))]]).
    split; [reflexivity|]. right.
    exists [Expense.Subdocument (Nullish, Value (Example.decimal 3 0))].
    split; [reflexivity|].
    apply Exists_cons_hd. eexists. split; [reflexivity|].
    intros [(s & Hs & _) _]. discriminate.
  - exists (JArray [JNull]). split; reflexivity.
  - repeat constructor.
  - reflexivity.
  - split; [exact Hrejected|].
    destruct Haccepted as (id & items_ & Hid & Hitems & Hpost & _ & _ & Hnull).
    exists id, items_. split_and!; [exact Hid|exact Hitems|exact Hpost|].
    by apply Hnull.
Defined.

(** An expense with no items is created: status 201, and the record is
    stored. *)
Lemma expense_create_empty_items_is_stored :
  let created : Expense.t :=
    {| Expense.items := Some []; Expense.totalAmount := Example.decimal 10 0;
       Expense.images := []; Expense.notes := Some "new";
       Expense.createdBy := 7%N;
       Expense.createdAt := 1700000000000;
       Expense.updatedAt := 1700000000000 |} in
  ExpenseRouter.items Example.no_items = Some "[]"
  ∧ JSON_parse "[]" = Some (JArray [])
  ∧ ExpenseRouter.post Example.morning
      (authenticated_request 7%N tt Example.no_items None None) ∅
    = (res_status_json 201 (Document (0%N, created)), {[ 0%N := created ]}).
Proof. split_and!; [reflexivity|reflexivity..]. Qed.

Lemma update_replaces_fields_keeps_owner_witness :
  (∃ stored,
     IncomeRouter.put_id Example.noon
       (authenticated_request 7%N Example.first (Example.income_form "5")
          (Some Example.new_slip) (Some [Example.photo])) Example.incomes
     = (res_json (Document (1%N, stored)), <[1%N := stored]> Example.incomes)
     ∧ Income.amount stored = Example.decimal 5 0
     ∧ Income.slip stored = Some Example.new_slip
     ∧ Income.createdBy stored = 7%N)
  ∧ (∃ stored,
       ExpenseRouter.put_id Example.noon
         (authenticated_request 7%N Example.first Example.coffee
            (Some Example.new_slip) (Some [Example.photo])) Example.expenses
       = (res_json (Document (1%N, stored)),
          <[1%N := stored]> Example.expenses)
       ∧ Expense.items stored
         = Some [Expense.Subdocument
                   {| Expense.description := "coffee";
                      Expense.amount := Example.decimal 35 (-1) |}]
       ∧ Expense.images stored = [Example.receipt; Example.photo]
       ∧ Expense.createdBy stored = 7%N).
Proof.
  destruct (update_replaces_fields_keeps_owner Example.noon 7%N 1%N
              Example.first
              (Example.income_form "5") Example.coffee
              (Some Example.new_slip) (Some [Example.photo])
              Example.incomes Example.expenses Example.salary Example.lunch)
    as [Hincome Hexpense];
    [reflexivity|apply lookup_singleton_eq|done|apply lookup_singleton_eq
    |done|].
  split.
  - destruct Hincome
      as [(a & stored & Hcast & Hput & Ha & _ & Hslip & Hby & _)|[Hno _]].
    + exists stored. split_and!; [exact Hput| |exact Hslip|exact Hby].
      rewrite Example_income_form_accepted in Hcast. congruence.
    + destruct (Hno _ Example_income_form_accepted).
  - destruct Hexpense
      as [(its & total & stored & Hacc & Hput & Hitems & _ & _ & Himages
           & Hby & _)|[Hno _]].
    + exists stored. split_and!; [exact Hput| |exact Himages|exact Hby].
      destruct Hacc as [(j & Hj & Hcast) _].
      destruct Example_coffee_accepted as [(j' & Hj' & Hcast') _].
      assert (j' = j) as -> by congruence.
      assert (its = Value [Expense.Subdocument
                             (Value "coffee",
                              Value (Example.decimal 35 (-1)))])
        as -> by congruence.
      apply (inj Some). rewrite <- Hitems. reflexivity.
    + destruct (Hno _ _ Example_coffee_accepted).
Defined.

(** An update of an expense by its owner whose [items] text does not parse
    passes the lookup, is answered with status 400 and the message of the
    error that [JSON.parse] threw, and replaces none of the record's fields
    by those of the form. *)
Lemma expense_update_garbled_replaces_nothing :
  ObjectId_cast Example.first = Some 1%N
  ∧ owned Expense.createdBy Example.expenses 1%N 7%N = Some Example.lunch
  ∧ ExpenseRouter.items Example.garbled = Some "oops"
  ∧ JSON_parse "oops" = None
  ∧ ExpenseRouter.put_id Example.noon
      (authenticated_request 7%N Example.first Example.garbled None None)
      Example.expenses
    = (res_status_json 400 (Message (error_message (SyntaxError "oops"))),
       Example.expenses)
  ∧ Example.expenses !! 1%N = Some Example.lunch
  ∧ Expense.notes Example.lunch = Some "old"
  ∧ ExpenseRouter.notes Example.garbled = Some "new".
Proof. split_and!; reflexivity. Qed.

Lemma listing_is_owned_newest_first_witness :
  ∃ r1 r2 r3 db1 db2 db3,
    IncomeRouter.post Example.morning
      (authenticated_request 8%N tt (Example.income_form "5") None None)
      Example.incomes = (res_status_json 201 (Document r1), db1)
    ∧ IncomeRouter.post Example.noon
        (authenticated_request 8%N tt (Example.income_form "5") None None)
        db1 = (res_status_json 201 (Document r2), db2)
    ∧ IncomeRouter.post Example.evening
        (authenticated_request 8%N tt (Example.income_form "5") None None)
        db2 = (res_status_json 201 (Document r3), db3)
    ∧ IncomeRouter.get_all (authenticated_request 8%N tt tt None None) db3
      = (res_json (Documents [r3; r2; r1]), db3).
Proof.
  destruct (listing_is_owned_newest_first 8%N None None
              Example.incomes Example.incomes
              Example.expenses Example.expenses
              Example.morning Example.noon Example.evening
              (Example.income_form "5") (Example.income_form "5")
              (Example.income_form "5")
              (Example.decimal 5 0) (Example.decimal 5 0)
              (Example.decimal 5 0)
              Example.coffee Example.coffee Example.coffee
              (Value [Expense.Subdocument
                        (Value "coffee", Value (Example.decimal 35 (-1)))])
              (Value [Expense.Subdocument
                        (Value "coffee", Value (Example.decimal 35 (-1)))])
              (Value [Expense.Subdocument
                        (Value "coffee", Value (Example.decimal 35 (-1)))])
              (Example.decimal 35 (-1)) (Example.decimal 35 (-1))
              (Example.decimal 35 (-1)))
    as (_ & _ & Hincomes & _).
  - done.
  - done.
  - unfold Example.incomes. intros id d [_ <-]%lookup_singleton_Some. done.
  - apply Example_income_form_accepted.
  - apply Example_income_form_accepted.
  - apply Example_income_form_accepted.
  - unfold Example.expenses. intros id d [_ <-]%lookup_singleton_Some. done.
  - apply Example_coffee_accepted.
  - apply Example_coffee_accepted.
  - apply Example_coffee_accepted.
  - exact Hincomes.
Defined.

(** * Further properties of the handlers *)

(** ** routes/auth.js *)

Section registration.
Context `{Runtime}.

(** The two outcomes of [/create-first-user]. *)
Lemma post_create_first_user_outcome (w : Ambient) req (db : gmap N User.t) :
  ((∃ id u, db !! id = Some u
            ∧ User.username u = AuthRouter.username (body req))
   ∧ AuthRouter.post_create_first_user w req db
     = (res_status_json 400 (Message "User already exists"), db))
  ∨ ((∀ id u, db !! id = Some u →
        User.username u ≠ AuthRouter.username (body req))
     ∧ AuthRouter.post_create_first_user w req db
       = (res_status_json 201 (Message "User created successfully"),
          <[fresh (dom db) :=
              {| User.username := AuthRouter.username (body req);
                 User.password :=
                   bcrypt_hash (AuthRouter.password (body req))
                     (genSalt w) |}]> db)).
Proof.
  destruct (list_find
              (λ d : N * User.t,
                 User.username d.2 = AuthRouter.username (body req))
              (map_to_list db)) as [[k [id u]]|] eqn:Hfind.
  - left. apply User_lookup_found in Hfind as [Hin Hname].
    assert (∃ id u, db !! id = Some u
                    ∧ User.username u = AuthRouter.username (body req))
      as Htaken by eauto.
    split; [done|]. by apply post_create_first_user_taken.
  - right.
    assert (∀ id u, db !! id = Some u →
              User.username u ≠ AuthRouter.username (body req)) as Hfree.
    { intros id u Hin Hname. rewrite list_find_None, Forall_forall in Hfind.
      apply (Hfind (id, u)); [by apply elem_of_map_to_list|done]. }
    split; [done|]. by apply post_create_first_user_free.
Qed.

End registration.

(** X1. A login never changes the stored users.  It answers with status
    401 and "Invalid credentials", unless a stored user has the given
    username and a stored hash that the password matches; then it answers
    with status 200 and a token that carries that user's identifier, is
    signed with [JWT_SECRET] and expires 86400 seconds after it was issued,
    when [JWT_SECRET] is set and not empty, and with status 500 and the
    message of the error that [jwt.sign] throws when it is not. *)
Theorem login_token_only_for_matching_user `{Runtime} (w : Ambient)
    (req : Request unit AuthRouter.Credentials) (db : gmap N User.t) :
  (AuthRouter.post_login w req db).2 = db
  ∧ ((AuthRouter.post_login w req db).1
     = res_status_json 401 (Message "Invalid credentials")
     ∨ ∃ id u,
         db !! id = Some u
         ∧ User.username u = AuthRouter.username (body req)
         ∧ bcrypt_compare (AuthRouter.password (body req)) (User.password u)
           = true
         ∧ ((∃ key token,
               JWT_SECRET w = Some key ∧ key ≠ EmptyString
               ∧ (AuthRouter.post_login w req db).1
                 = res_status_json 200 (TokenOf token)
               ∧ token_userId token = id
               ∧ token_key token = key
               ∧ token_exp token = token_iat token + 86400)
            ∨ ((JWT_SECRET w = None ∨ JWT_SECRET w = Some EmptyString)
               ∧ (AuthRouter.post_login w req db).1
                 = res_status_json 500
                     (Message
                        (error_message
                           (Error_new
                              "secretOrPrivateKey must have a value")))))).
Proof.
  unfold AuthRouter.post_login. run.
  destruct (list_find _ _) as [[k [id u]]|] eqn:Hfind; simpl;
    [|split; [done|by left]].
  apply User_lookup_found in Hfind as [Hin Hname].
  destruct (bcrypt_compare _ _) eqn:Hmatch; simpl; [|split; [done|by left]].
  destruct (JWT_SECRET w) as [[|c key]|] eqn:Hsecret; simpl.
  - split; [done|]. right. exists id, u. split_and!; try done.
    right. split; [by right|done].
  - split; [done|]. right. exists id, u. split_and!; try done.
    left. eexists (String c key), _. by split_and!.
  - split; [done|]. right. exists id, u. split_and!; try done.
    right. split; [by left|done].
Qed.

(** X2. A registration that runs from its lookup to its answer on users
    whose usernames are pairwise different leaves them pairwise different:
    the lookup before the save keeps a second user from being stored under
    a username that is taken.  (Of two registrations that overlap, each
    suspended between its lookup and its save, nothing is said here.) *)
Theorem registration_keeps_usernames_unique `{Runtime} (w : Ambient)
    (req : Request unit AuthRouter.Credentials) (db : gmap N User.t) :
  unique_usernames db →
  unique_usernames (AuthRouter.post_create_first_user w req db).2.
Proof.
  intros Hunique.
  destruct (post_create_first_user_outcome w req db)
    as [[_ ->]|[Hfree ->]]; [done|]. simpl.
  intros i j ui uj Hi Hj Hname.
  destruct (decide (i = fresh (dom db))) as [->|Hi'],
    (decide (j = fresh (dom db))) as [->|Hj']; [done|..].
  - rewrite lookup_insert_eq in Hi. injection Hi as <-.
    rewrite lookup_insert_ne in Hj by done.
    by destruct (Hfree j uj Hj).
  - rewrite lookup_insert_eq in Hj. injection Hj as <-.
    rewrite lookup_insert_ne in Hi by done.
    by destruct (Hfree i ui Hi).
  - rewrite lookup_insert_ne in Hi, Hj by done. by apply (Hunique i j ui uj).
Qed.

(** X3. A registration never removes or alters a stored user, and adds at
    most one. *)
Theorem registration_keeps_stored_users `{Runtime} (w : Ambient)
    (req : Request unit AuthRouter.Credentials) (db : gmap N User.t) :
  db ⊆ (AuthRouter.post_create_first_user w req db).2
  ∧ (size (AuthRouter.post_create_first_user w req db).2 ≤ S (size db))%nat.
Proof.
  destruct (post_create_first_user_outcome w req db)
    as [[_ ->]|[_ ->]]; simpl.
  - split; [done|lia].
  - split.
    + apply insert_subseteq, fresh_id_unused.
    + rewrite map_size_insert_None by apply fresh_id_unused. lia.
Qed.

(** X4. Once a registration under a username has been answered, whether it
    succeeded or not, every later registration under the same username, with
    whatever password, fails with "User already exists" and changes
    nothing. *)
Theorem registration_twice_conflicts `{Runtime} (w w' : Ambient)
    (req : Request unit AuthRouter.Credentials) (password' : string)
    (db : gmap N User.t) :
  let db1 := (AuthRouter.post_create_first_user w req db).2 in
  AuthRouter.post_create_first_user w'
    (express_request tt
       {| AuthRouter.username := AuthRouter.username (body req);
          AuthRouter.password := password' |}) db1
  = (res_status_json 400 (Message "User already exists"), db1).
Proof.
  intros db1. apply post_create_first_user_taken. simpl. unfold db1.
  destruct (post_create_first_user_outcome w req db)
    as [[Htaken ->]|[_ ->]]; simpl; [done|].
  eexists _, _. split; [apply lookup_insert_eq|done].
Qed.

(** X5. The handler of [/change-password], on a request that carries
    [req.user]: an unknown [userId] is answered with 404 and a wrong current
    password with 401, both leaving the users as they were; and whatever the
    answer, no other user's record is touched, no user is added or removed,
    and no username changes. *)
Theorem change_password_handler_frame `{Runtime} (w : Ambient)
    (req : Request unit AuthRouter.PasswordChange) (uid : N)
    (db : gmap N User.t) :
  user req = Some {| userId := uid |} →
  (db !! uid = None →
   AuthRouter.post_change_password w req db
   = (res_status_json 404 (Message "User not found"), db))
  ∧ (∀ u, db !! uid = Some u →
       bcrypt_compare (AuthRouter.currentPassword (body req))
         (User.password u) = false →
       AuthRouter.post_change_password w req db
       = (res_status_json 401 (Message "Current password is incorrect"), db))
  ∧ (∀ j, j ≠ uid →
       (AuthRouter.post_change_password w req db).2 !! j = db !! j)
  ∧ (∀ j, User.username <$> (AuthRouter.post_change_password w req db).2 !! j
          = User.username <$> db !! j).
Proof.
  intros Huser. rewrite (post_change_password_with_user w req uid db Huser).
  split_and!.
  - by intros ->.
  - by intros u -> ->.
  - intros j Hne. destruct (db !! uid) as [u|]; [|done].
    destruct (bcrypt_compare _ _); [|done]. simpl.
    by rewrite lookup_insert_ne.
  - intros j. destruct (db !! uid) as [u|] eqn:Hu; [|done].
    destruct (bcrypt_compare _ _); [|done]. simpl.
    destruct (decide (j = uid)) as [->|Hne].
    + by rewrite lookup_insert_eq, Hu.
    + by rewrite lookup_insert_ne.
Qed.

(** ** routes/income.js and routes/expense.js *)

Section writes.
Context `{Runtime}.

(** The two outcomes of a creation and of an update of an expense. *)
Lemma Expense_post_outcome w uid form f fs (db : gmap N Expense.t) :
  (∃ e, ExpenseRouter.post w (authenticated_request uid tt form f fs) db
        = (res_status_json 400 (Message (error_message e)), db))
  ∨ (∃ its items_ total,
       Expense_accepts form its total
       ∧ Expense.items_value its = Some items_
       ∧ ExpenseRouter.post w (authenticated_request uid tt form f fs) db
         = (res_status_json 201
              (Document (fresh (dom db),
                         Expense_created w uid form fs items_ total)),
            <[fresh (dom db) := Expense_created w uid form fs items_ total]>
              db)).
Proof.
  destruct (JSON_parse_value (ExpenseRouter.items form)) as [j|e] eqn:Hparse.
  - rewrite (Expense_post_parsed _ _ _ _ _ _ j Hparse).
    match goal with |- context [Expense.save w ?d db] =>
      destruct (Expense_save_run w d db)
        as [[_ ->]|(items_ & total & Hacc & Hitems & Ht & ->)]
    end.
    + left. eauto.
    + right. simpl in Hacc, Hitems, Ht.
      exists (Expense.cast_items j), items_, total.
      split_and!; [split_and!; eauto|done|reflexivity].
  - left. exists e. by apply Expense_post_unparsed.
Qed.

Lemma Expense_put_id_outcome w uid s id form f fs (db : gmap N Expense.t) d :
  ObjectId_cast s = Some id →
  owned Expense.createdBy db id uid = Some d →
  (∃ e, ExpenseRouter.put_id w (authenticated_request uid s form f fs) db
        = (res_status_json 400 (Message (error_message e)), db))
  ∨ (∃ its items_ total,
       Expense_accepts form its total
       ∧ Expense.items_value its = Some items_
       ∧ ExpenseRouter.put_id w (authenticated_request uid s form f fs) db
         = (res_json (Document (id, Expense_updated w form fs items_ total d)),
            <[id := Expense_updated w form fs items_ total d]> db)).
Proof.
  intros Hs Hd.
  destruct (JSON_parse_value (ExpenseRouter.items form)) as [j|e] eqn:Hparse.
  - rewrite (Expense_put_id_parsed _ _ _ id _ _ _ _ d j Hs Hd Hparse).
    match goal with |- context [Expense.save w ?doc db] =>
      destruct (Expense_save_run w doc db)
        as [[_ ->]|(items_ & total & Hacc & Hitems & Ht & ->)]
    end.
    + left. eauto.
    + right. simpl in Hacc, Hitems, Ht.
      exists (Expense.cast_items j), items_, total.
      split_and!; [split_and!; eauto|done|reflexivity].
  - left. exists e. by apply (Expense_put_id_unparsed _ _ _ id _ _ _ _ d).
Qed.

(** How each handler that writes leaves its store. *)
Lemma Income_post_effect w uid form f fs (db : gmap N Income.t) :
  write_effect Income.createdBy uid db
    (IncomeRouter.post w (authenticated_request uid tt form f fs) db).2.
Proof.
  rewrite Income_post_run. destruct (cast_Number _) as [|a|]; [by left| |by left].
  right; left. eexists _, _. split_and!; [apply fresh_id_unused| |reflexivity].
  done.
Qed.

Lemma Income_put_id_effect w uid s form f fs (db : gmap N Income.t) :
  write_effect Income.createdBy uid db
    (IncomeRouter.put_id w (authenticated_request uid s form f fs) db).2.
Proof.
  rewrite Income_put_id_run.
  destruct (ObjectId_cast s) as [id|]; [|by left].
  destruct (owned Income.createdBy db id uid) as [d|] eqn:Hd; [|by left].
  apply owned_Some in Hd as [Hd Hby].
  destruct (cast_Number _) as [|a|]; [by left| |by left].
  right; right; left. exists id, d, (Income_updated w form f a d).
  by split_and!.
Qed.

Lemma Income_delete_id_effect uid s f fs (db : gmap N Income.t) :
  write_effect Income.createdBy uid db
    (IncomeRouter.delete_id (authenticated_request uid s tt f fs) db).2.
Proof.
  rewrite Income_delete_id_run.
  destruct (ObjectId_cast s) as [id|]; [|by left].
  destruct (owned Income.createdBy db id uid) as [d|] eqn:Hd; [|by left].
  apply owned_Some in Hd as [Hd Hby].
  right; right; right. by exists id, d.
Qed.

Lemma Expense_post_effect w uid form f fs (db : gmap N Expense.t) :
  write_effect Expense.createdBy uid db
    (ExpenseRouter.post w (authenticated_request uid tt form f fs) db).2.
Proof.
  destruct (Expense_post_outcome w uid form f fs db)
    as [[e ->]|(its & items_ & total & _ & _ & ->)]; [by left|].
  right; left. eexists _, _. split_and!; [apply fresh_id_unused| |reflexivity].
  done.
Qed.

Lemma Expense_put_id_effect w uid s form f fs (db : gmap N Expense.t) :
  write_effect Expense.createdBy uid db
    (ExpenseRouter.put_id w (authenticated_request uid s form f fs) db).2.
Proof.
  destruct (ObjectId_cast s) as [id|] eqn:Hs.
  2:{ rewrite Expense_put_id_malformed by done. by left. }
  destruct (owned Expense.createdBy db id uid) as [d|] eqn:Hd.
  - destruct (Expense_put_id_outcome w uid s id form f fs db d Hs Hd)
      as [[e ->]|(its & items_ & total & _ & _ & ->)]; [by left|].
    apply owned_Some in Hd as [Hd Hby].
    right; right; left.
    exists id, d, (Expense_updated w form fs items_ total d). by split_and!.
  - rewrite (Expense_put_id_missing _ _ _ id) by done. by left.
Qed.

Lemma Expense_delete_id_effect uid s f fs (db : gmap N Expense.t) :
  write_effect Expense.createdBy uid db
    (ExpenseRouter.delete_id (authenticated_request uid s tt f fs) db).2.
Proof.
  rewrite Expense_delete_id_run.
  destruct (ObjectId_cast s) as [id|]; [|by left].
  destruct (owned Expense.createdBy db id uid) as [d|] eqn:Hd; [|by left].
  apply owned_Some in Hd as [Hd Hby].
  right; right; right. by exists id, d.
Qed.

End writes.

(** What a write of [uid] leaves of the records of everyone else. *)
Lemma write_effect_others {D} (createdBy : D → N) (uid : N)
    (db db' : gmap N D) :
  write_effect createdBy uid db db' →
  filter (λ kv : N * D, createdBy kv.2 ≠ uid) db'
  = filter (λ kv : N * D, createdBy kv.2 ≠ uid) db.
Proof.
  intros [->|[(id & d & Hnone & Hby & ->)
             |[(id & d0 & d & Hd0 & Hby0 & Hby & ->)
              |(id & d0 & Hd0 & Hby0 & ->)]]]; [done|..].
  - rewrite map_filter_insert_False by (simpl; by intros []).
    by rewrite delete_id.
  - rewrite map_filter_insert_False by (simpl; by intros []).
    apply map_filter_delete_not. intros d' Hd'. simpl.
    assert (d' = d0) as -> by congruence. by intros [].
  - rewrite map_filter_delete. apply delete_id.
    apply map_lookup_filter_None. right. intros d' Hd'. simpl.
    assert (d' = d0) as -> by congruence. by intros [].
Qed.

(** X6. A creation of an income whose [amount] is absent or not numeric is
    answered with status 400 and the message of the validation error, and
    nothing is stored; one whose [amount] is numeric is answered with status
    201 and stored under an unused identifier, created by the caller and
    stamped with the time of the request, with the reference of the uploaded
    slip if there was one and no slip otherwise. *)
Theorem income_create_validation `{Runtime} (w : Ambient) (uid : N)
    (rejected accepted : IncomeRouter.Form) (a : number)
    (f : option File) (fs : option (list File)) (db : gmap N Income.t) :
  (∀ a', cast_Number (JString <$> IncomeRouter.amount rejected) ≠ Value a') →
  cast_Number (JString <$> IncomeRouter.amount accepted) = Value a →
  (∃ errors,
     errors ≠ []
     ∧ IncomeRouter.post w (authenticated_request uid tt rejected f fs) db
       = (res_status_json 400
            (Message (error_message (ValidationError "Income" errors))), db))
  ∧ (∃ id d,
       db !! id = None
       ∧ IncomeRouter.post w (authenticated_request uid tt accepted f fs) db
         = (res_status_json 201 (Document (id, d)), <[id := d]> db)
       ∧ Income.amount d = a
       ∧ Income.notes d = IncomeRouter.notes accepted
       ∧ Income.createdBy d = uid
       ∧ Income.createdAt d = Date_now w
       ∧ Income.updatedAt d = Date_now w
       ∧ Income.slip d
         = (if f is Some f then Some (IncomeRouter.reference f) else None)).
Proof.
  intros Hrej Hacc. split.
  - rewrite Income_post_run.
    destruct (cast_Number _) as [|a'|] eqn:Hcast;
      [|by destruct (Hrej a')|]; eexists; (split; [|reflexivity]); done.
  - rewrite Income_post_run, Hacc.
    exists (fresh (dom db)), (Income_created w uid accepted f a).
    split_and!; try done. apply fresh_id_unused.
Qed.

Section read_after_write.
Context `{Runtime}.

Lemma Income_post_written w uid form f fs (db db' : gmap N Income.t) code r :
  IncomeRouter.post w (authenticated_request uid tt form f fs) db
  = (res_status_json code (Document r), db') →
  db' !! r.1 = Some r.2 ∧ Income.createdBy r.2 = uid.
Proof.
  rewrite Income_post_run. destruct (cast_Number _); intros [= <- <- <-].
  simpl. by rewrite lookup_insert_eq.
Qed.

Lemma Income_put_id_written w uid s form f fs (db db' : gmap N Income.t)
    code r :
  IncomeRouter.put_id w (authenticated_request uid s form f fs) db
  = (res_status_json code (Document r), db') →
  db' !! r.1 = Some r.2 ∧ Income.createdBy r.2 = uid.
Proof.
  rewrite Income_put_id_run. destruct (ObjectId_cast s) as [id|]; [|done].
  destruct (owned Income.createdBy db id uid) as [d|] eqn:Hd; [|done].
  apply owned_Some in Hd as [_ Hby].
  destruct (cast_Number _); intros [= <- <- <-].
  simpl. by rewrite lookup_insert_eq.
Qed.

Lemma Expense_post_written w uid form f fs (db db' : gmap N Expense.t)
    code r :
  ExpenseRouter.post w (authenticated_request uid tt form f fs) db
  = (res_status_json code (Document r), db') →
  db' !! r.1 = Some r.2 ∧ Expense.createdBy r.2 = uid.
Proof.
  destruct (Expense_post_outcome w uid form f fs db)
    as [[e ->]|(its & items_ & total & _ & _ & ->)]; intros [= <- <- <-].
  simpl. by rewrite lookup_insert_eq.
Qed.

Lemma Expense_put_id_written w uid s form f fs (db db' : gmap N Expense.t)
    code r :
  ExpenseRouter.put_id w (authenticated_request uid s form f fs) db
  = (res_status_json code (Document r), db') →
  db' !! r.1 = Some r.2 ∧ Expense.createdBy r.2 = uid.
Proof.
  destruct (ObjectId_cast s) as [id|] eqn:Hs.
  2:{ by rewrite Expense_put_id_malformed. }
  destruct (owned Expense.createdBy db id uid) as [d|] eqn:Hd.
  - destruct (Expense_put_id_outcome w uid s id form f fs db d Hs Hd)
      as [[e ->]|(its & items_ & total & _ & _ & ->)]; intros [= <- <- <-].
    apply owned_Some in Hd as [_ Hby].
    simpl. by rewrite lookup_insert_eq.
  - by rewrite (Expense_put_id_missing _ _ _ id).
Qed.

Lemma Income_get_id_stored (uid v : N) s r f fs (db : gmap N Income.t) :
  ObjectId_cast s = Some r.1 →
  db !! r.1 = Some r.2 → Income.createdBy r.2 = uid →
  IncomeRouter.get_id (authenticated_request uid s tt f fs) db
  = (res_json (Document r), db)
  ∧ (v ≠ uid →
     IncomeRouter.get_id (authenticated_request v s tt f fs) db
     = (res_status_json 404 (Message "Income record not found"), db)).
Proof.
  intros Hs Hr Hby. rewrite !Income_get_id_run, Hs. split.
  - assert (owned Income.createdBy db r.1 uid = Some r.2) as ->
      by by apply owned_Some.
    by destruct r.
  - intros Hv. assert (owned Income.createdBy db r.1 v = None) as ->; [|done].
    apply owned_None. right. exists r.2. split; [done|congruence].
Qed.

Lemma Expense_get_id_stored (uid v : N) s r f fs (db : gmap N Expense.t) :
  ObjectId_cast s = Some r.1 →
  db !! r.1 = Some r.2 → Expense.createdBy r.2 = uid →
  ExpenseRouter.get_id (authenticated_request uid s tt f fs) db
  = (res_json (Document r), db)
  ∧ (v ≠ uid →
     ExpenseRouter.get_id (authenticated_request v s tt f fs) db
     = (res_status_json 404 (Message "Expense not found"), db)).
Proof.
  intros Hs Hr Hby. rewrite !Expense_get_id_run, Hs. split.
  - assert (owned Expense.createdBy db r.1 uid = Some r.2) as ->
      by by apply owned_Some.
    by destruct r.
  - intros Hv. assert (owned Expense.createdBy db r.1 v = None) as ->; [|done].
    apply owned_None. right. exists r.2. split; [done|congruence].
Qed.

End read_after_write.

(** X7. Whatever record a creation or an update of an income or an expense
    answers with, a read right after, under any path whose text is that of
    the record's identifier, gives the caller that same record with status
    200, and gives any other user the 404 of a record that is not there. *)
Theorem read_after_write_returns_written `{Runtime} (w : Ambient)
    (uid v : N) (s : string)
    (iform : IncomeRouter.Form) (eform : ExpenseRouter.Form)
    (f : option File) (fs : option (list File))
    (incomes : gmap N Income.t) (expenses : gmap N Expense.t) :
  v ≠ uid →
  (∀ code r db' s',
     IncomeRouter.post w (authenticated_request uid tt iform f fs) incomes
     = (res_status_json code (Document r), db')
     ∨ IncomeRouter.put_id w (authenticated_request uid s iform f fs) incomes
       = (res_status_json code (Document r), db') →
     ObjectId_cast s' = Some r.1 →
     IncomeRouter.get_id (authenticated_request uid s' tt None None) db'
     = (res_json (Document r), db')
     ∧ IncomeRouter.get_id (authenticated_request v s' tt None None) db'
       = (res_status_json 404 (Message "Income record not found"), db'))
  ∧ (∀ code r db' s',
       ExpenseRouter.post w (authenticated_request uid tt eform f fs) expenses
       = (res_status_json code (Document r), db')
       ∨ ExpenseRouter.put_id w (authenticated_request uid s eform f fs)
           expenses
         = (res_status_json code (Document r), db') →
       ObjectId_cast s' = Some r.1 →
       ExpenseRouter.get_id (authenticated_request uid s' tt None None) db'
       = (res_json (Document r), db')
       ∧ ExpenseRouter.get_id (authenticated_request v s' tt None None) db'
         = (res_status_json 404 (Message "Expense not found"), db')).
Proof.
  intros Hv. split.
  - intros code r db' s'
      [[Hr Hby]%Income_post_written|[Hr Hby]%Income_put_id_written] Hs';
      destruct (Income_get_id_stored uid v s' r None None db' Hs' Hr Hby);
      auto.
  - intros code r db' s'
      [[Hr Hby]%Expense_post_written|[Hr Hby]%Expense_put_id_written] Hs';
      destruct (Expense_get_id_stored uid v s' r None None db' Hs' Hr Hby);
      auto.
Qed.

(** X8. A deletion by the user who created the record, under a path whose
    text is that of its identifier, is answered with status 200 and removes
    that record and no other; a read of it and a second deletion are then
    answered with 404, the second deletion changing nothing. *)
Theorem delete_removes_once `{Runtime} (uid id : N) (s : string)
    (incomes : gmap N Income.t) (expenses : gmap N Expense.t)
    (di : Income.t) (de : Expense.t) :
  ObjectId_cast s = Some id →
  incomes !! id = Some di → Income.createdBy di = uid →
  expenses !! id = Some de → Expense.createdBy de = uid →
  (IncomeRouter.delete_id (authenticated_request uid s tt None None) incomes
   = (res_json (Message "Income record deleted successfully"),
      delete id incomes)
   ∧ (∀ j, j ≠ id → delete id incomes !! j = incomes !! j)
   ∧ IncomeRouter.get_id (authenticated_request uid s tt None None)
       (delete id incomes)
     = (res_status_json 404 (Message "Income record not found"),
        delete id incomes)
   ∧ IncomeRouter.delete_id (authenticated_request uid s tt None None)
       (delete id incomes)
     = (res_status_json 404 (Message "Income record not found"),
        delete id incomes))
  ∧ (ExpenseRouter.delete_id (authenticated_request uid s tt None None)
       expenses
     = (res_json (Message "Expense deleted successfully"), delete id expenses)
     ∧ (∀ j, j ≠ id → delete id expenses !! j = expenses !! j)
     ∧ ExpenseRouter.get_id (authenticated_request uid s tt None None)
         (delete id expenses)
       = (res_status_json 404 (Message "Expense not found"),
          delete id expenses)
     ∧ ExpenseRouter.delete_id (authenticated_request uid s tt None None)
         (delete id expenses)
       = (res_status_json 404 (Message "Expense not found"),
          delete id expenses)).
Proof.
  intros Hs Hi Hbi He Hbe.
  assert (owned Income.createdBy incomes id uid = Some di) as Hoi
    by by apply owned_Some.
  assert (owned Expense.createdBy expenses id uid = Some de) as Hoe
    by by apply owned_Some.
  assert (owned Income.createdBy (delete id incomes) id uid = None) as Hgi
    by (apply owned_None; left; apply lookup_delete_eq).
  assert (owned Expense.createdBy (delete id expenses) id uid = None) as Hge
    by (apply owned_None; left; apply lookup_delete_eq).
  split; split_and!.
  - by rewrite Income_delete_id_run, Hs, Hoi.
  - intros j Hne. by rewrite lookup_delete_ne.
  - by rewrite Income_get_id_run, Hs, Hgi.
  - by rewrite Income_delete_id_run, Hs, Hgi.
  - by rewrite Expense_delete_id_run, Hs, Hoe.
  - intros j Hne. by rewrite lookup_delete_ne.
  - by rewrite Expense_get_id_run, Hs, Hge.
  - by rewrite Expense_delete_id_run, Hs, Hge.
Qed.

(** X9. No creation, update or deletion requested by one user changes the
    records of the others: the stored incomes, and the stored expenses, that
    were not created by the caller are the same after as before, whatever the
    request holds, whatever the text of its path and however it is
    answered. *)
Theorem writes_leave_other_users_records `{Runtime} (w : Ambient)
    (uid : N) (s : string)
    (iform : IncomeRouter.Form) (eform : ExpenseRouter.Form)
    (f : option File) (fs : option (list File))
    (incomes : gmap N Income.t) (expenses : gmap N Expense.t) :
  let others_i (db : gmap N Income.t) :=
    filter (λ kv : N * Income.t, Income.createdBy kv.2 ≠ uid) db in
  let others_e (db : gmap N Expense.t) :=
    filter (λ kv : N * Expense.t, Expense.createdBy kv.2 ≠ uid) db in
  (others_i (IncomeRouter.post w
               (authenticated_request uid tt iform f fs) incomes).2
   = others_i incomes
   ∧ others_i (IncomeRouter.put_id w
                 (authenticated_request uid s iform f fs) incomes).2
     = others_i incomes
   ∧ others_i (IncomeRouter.delete_id
                 (authenticated_request uid s tt f fs) incomes).2
     = others_i incomes)
  ∧ (others_e (ExpenseRouter.post w
                 (authenticated_request uid tt eform f fs) expenses).2
     = others_e expenses
     ∧ others_e (ExpenseRouter.put_id w
                   (authenticated_request uid s eform f fs) expenses).2
       = others_e expenses
     ∧ others_e (ExpenseRouter.delete_id
                   (authenticated_request uid s tt f fs) expenses).2
       = others_e expenses).
Proof.
  intros others_i others_e. unfold others_i, others_e.
  split; split_and!; apply write_effect_others.
  - apply Income_post_effect.
  - apply Income_put_id_effect.
  - apply Income_delete_id_effect.
  - apply Expense_post_effect.
  - apply Expense_put_id_effect.
  - apply Expense_delete_id_effect.
Qed.

(** X10. An update, of an income or of an expense, whatever the text of its
    path, neither adds nor removes a record, and whatever record was stored
    is still stored afterwards with the same creator and the same creation
    time; for an expense, the image references it had are still there, in
    order, at the front of those it has afterwards: an update can append
    images but not drop one. *)
Theorem update_keeps_records_and_images `{Runtime} (w : Ambient)
    (uid : N) (s : string)
    (iform : IncomeRouter.Form) (eform : ExpenseRouter.Form)
    (f : option File) (fs : option (list File))
    (incomes : gmap N Income.t) (expenses : gmap N Expense.t) :
  let incomes' :=
    (IncomeRouter.put_id w (authenticated_request uid s iform f fs)
       incomes).2 in
  let expenses' :=
    (ExpenseRouter.put_id w (authenticated_request uid s eform f fs)
       expenses).2 in
  (dom incomes' = dom incomes
   ∧ ∀ j d, incomes !! j = Some d →
       ∃ d', incomes' !! j = Some d'
             ∧ Income.createdBy d' = Income.createdBy d
             ∧ Income.createdAt d' = Income.createdAt d)
  ∧ (dom expenses' = dom expenses
     ∧ ∀ j d, expenses !! j = Some d →
         ∃ d', expenses' !! j = Some d'
               ∧ Expense.createdBy d' = Expense.createdBy d
               ∧ Expense.createdAt d' = Expense.createdAt d
               ∧ Expense.images d `prefix_of` Expense.images d').
Proof.
  intros incomes' expenses'. split.
  - unfold incomes'. rewrite Income_put_id_run.
    destruct (ObjectId_cast s) as [id|]; [|split; eauto].
    destruct (owned Income.createdBy incomes id uid) as [d0|] eqn:Hd0;
      [|split; eauto].
    apply owned_Some in Hd0 as [Hd0 _].
    destruct (cast_Number _) as [|a|]; [split; eauto| |split; eauto]. simpl.
    split.
    + rewrite dom_insert_L. apply elem_of_dom_2 in Hd0. set_solver.
    + intros j d Hd. destruct (decide (j = id)) as [->|Hne].
      * rewrite lookup_insert_eq. assert (d = d0) as -> by congruence. eauto.
      * rewrite lookup_insert_ne by done. eauto.
  - unfold expenses'.
    destruct (ObjectId_cast s) as [id|] eqn:Hs.
    2:{ rewrite Expense_put_id_malformed by done. split; eauto. }
    destruct (owned Expense.createdBy expenses id uid) as [d0|] eqn:Hd0.
    2:{ rewrite (Expense_put_id_missing _ _ _ id) by done. split; eauto. }
    destruct (Expense_put_id_outcome w uid s id eform f fs expenses d0 Hs Hd0)
      as [[e ->]|(its & items_ & total & _ & _ & ->)]; [split; eauto|].
    apply owned_Some in Hd0 as [Hd0 _]. simpl. split.
    + rewrite dom_insert_L. apply elem_of_dom_2 in Hd0. set_solver.
    + intros j d Hd. destruct (decide (j = id)) as [->|Hne].
      * rewrite lookup_insert_eq. assert (d = d0) as -> by congruence.
        eexists. split_and!; try done. by apply prefix_app_r.
      * rewrite lookup_insert_ne by done. eauto.
Qed.

(** X11. A record that a creation answered with is in the next listing of
    the caller; and after a deletion under a path whose text is that of an
    identifier, however it was answered, the caller's listing holds no
    record with that identifier. *)
Theorem listing_follows_create_and_delete `{Runtime} (w : Ambient)
    (uid id : N) (s : string)
    (iform : IncomeRouter.Form) (eform : ExpenseRouter.Form)
    (f : option File) (fs : option (list File))
    (incomes : gmap N Income.t) (expenses : gmap N Expense.t) :
  ((∀ code r db',
      IncomeRouter.post w (authenticated_request uid tt iform f fs) incomes
      = (res_status_json code (Document r), db') →
      ∃ l, IncomeRouter.get_all (authenticated_request uid tt tt None None)
             db' = (res_json (Documents l), db')
           ∧ r ∈ l)
   ∧ (ObjectId_cast s = Some id →
      ∃ l,
        IncomeRouter.get_all (authenticated_request uid tt tt None None)
          (IncomeRouter.delete_id (authenticated_request uid s tt None None)
             incomes).2
        = (res_json (Documents l),
           (IncomeRouter.delete_id (authenticated_request uid s tt None None)
              incomes).2)
        ∧ ∀ d, (id, d) ∉ l))
  ∧ ((∀ code r db',
        ExpenseRouter.post w (authenticated_request uid tt eform f fs)
          expenses
        = (res_status_json code (Document r), db') →
        ∃ l, ExpenseRouter.get_all (authenticated_request uid tt tt None None)
               db' = (res_json (Documents l), db')
             ∧ r ∈ l)
     ∧ (ObjectId_cast s = Some id →
        ∃ l,
          ExpenseRouter.get_all (authenticated_request uid tt tt None None)
            (ExpenseRouter.delete_id
               (authenticated_request uid s tt None None) expenses).2
          = (res_json (Documents l),
             (ExpenseRouter.delete_id
                (authenticated_request uid s tt None None) expenses).2)
          ∧ ∀ d, (id, d) ∉ l)).
Proof.
  split; split.
  - intros code [rid rd] db' [Hr Hby]%Income_post_written.
    rewrite Income_get_all_run.
    destruct (Model_find_sort_spec Income.createdBy Income.createdAt db' uid)
      as (l & -> & _ & _ & Hmem & _).
    exists l. split; [done|]. by apply Hmem.
  - intros Hs. rewrite Income_delete_id_run, Hs.
    destruct (owned Income.createdBy incomes id uid) as [d0|] eqn:Hd0;
      cbn [snd]; rewrite Income_get_all_run.
    + destruct (Model_find_sort_spec Income.createdBy Income.createdAt
                  (delete id incomes) uid) as (l & -> & _ & _ & Hmem & _).
      exists l. split; [done|]. intros d [Hd _]%Hmem.
      by rewrite lookup_delete_eq in Hd.
    + destruct (Model_find_sort_spec Income.createdBy Income.createdAt
                  incomes uid) as (l & -> & _ & _ & Hmem & _).
      exists l. split; [done|]. intros d Hd%Hmem%owned_Some. congruence.
  - intros code [rid rd] db' [Hr Hby]%Expense_post_written.
    rewrite Expense_get_all_run.
    destruct (Model_find_sort_spec Expense.createdBy Expense.createdAt db' uid)
      as (l & -> & _ & _ & Hmem & _).
    exists l. split; [done|]. by apply Hmem.
  - intros Hs. rewrite Expense_delete_id_run, Hs.
    destruct (owned Expense.createdBy expenses id uid) as [d0|] eqn:Hd0;
      cbn [snd]; rewrite Expense_get_all_run.
    + destruct (Model_find_sort_spec Expense.createdBy Expense.createdAt
                  (delete id expenses) uid) as (l & -> & _ & _ & Hmem & _).
      exists l. split; [done|]. intros d [Hd _]%Hmem.
      by rewrite lookup_delete_eq in Hd.
    + destruct (Model_find_sort_spec Expense.createdBy Expense.createdAt
                  expenses uid) as (l & -> & _ & _ & Hmem & _).
      exists l. split; [done|]. intros d Hd%Hmem%owned_Some. congruence.
Qed.

Section described_items.
Context `{Runtime}.

Lemma accepted_elements_described its items_ :
  Forall acceptable_element its →
  mapM Expense.element_value its = Some items_ →
  Forall (λ el, ∀ it, el = Expense.Subdocument it →
                  Expense.description it ≠ EmptyString) items_.
Proof.
  intros Hacc Hvalues%mapM_Some.
  induction Hvalues as [|el item its items_ Hel _ IH]; [constructor|].
  apply Forall_cons in Hacc as [Hacc1 Hacc].
  constructor; [|by apply IH].
  intros it ->. destruct el as [[c1 c2]|v]; [|done].
  destruct Hacc1 as [(s & Hs & Hne) _]. simpl in Hs. subst c1.
  destruct c2; simplify_eq/=. done.
Qed.

Lemma accepted_items_described its items_ l :
  acceptable_items its →
  Expense.items_value its = Some items_ →
  items_ = Some l →
  Forall (λ el, ∀ it, el = Expense.Subdocument it →
                  Expense.description it ≠ EmptyString) l.
Proof.
  intros Hacc Hvalues ->.
  destruct its as [|its|]; simpl in Hvalues; [done| |done].
  destruct (mapM Expense.element_value its) as [l'|] eqn:Hl'; [|done].
  injection Hvalues as ->. by apply (accepted_elements_described its).
Qed.

Lemma write_described (db : gmap N Expense.t) id d :
  (∀ j d', db !! j = Some d' → described d') → described d →
  ∀ j d', <[id := d]> db !! j = Some d' → described d'.
Proof.
  intros Hdb Hd j d'. destruct (decide (j = id)) as [->|Hne].
  - rewrite lookup_insert_eq. by intros [= <-].
  - rewrite lookup_insert_ne by done. apply Hdb.
Qed.

End described_items.

(** X12. If every subdocument among the items of every stored expense has
    a description that is not empty, the same holds after any creation,
    update or deletion request, whatever it holds: the schema's required
    [description] keeps a subdocument without one out of the store.  (An
    element that is null, or an [items] that is null, is stored as it
    is.) *)
Theorem stored_items_stay_described `{Runtime} (w : Ambient)
    (uid : N) (s : string) (form : ExpenseRouter.Form)
    (f : option File) (fs : option (list File)) (db : gmap N Expense.t) :
  (∀ j d, db !! j = Some d → described d) →
  (∀ j d, (ExpenseRouter.post w (authenticated_request uid tt form f fs)
             db).2 !! j = Some d → described d)
  ∧ (∀ j d, (ExpenseRouter.put_id w (authenticated_request uid s form f fs)
               db).2 !! j = Some d → described d)
  ∧ (∀ j d, (ExpenseRouter.delete_id (authenticated_request uid s tt f fs)
               db).2 !! j = Some d → described d).
Proof.
  intros Hdb. split_and!.
  - destruct (Expense_post_outcome w uid form f fs db)
      as [[e ->]|(its & items_ & total & (_ & Hacc & _) & Hitems & ->)];
      [done|].
    apply write_described; [done|]. intros l Hl.
    by apply (accepted_items_described its items_ l).
  - destruct (ObjectId_cast s) as [id|] eqn:Hs.
    2:{ by rewrite Expense_put_id_malformed. }
    destruct (owned Expense.createdBy db id uid) as [d0|] eqn:Hd0.
    2:{ by rewrite (Expense_put_id_missing _ _ _ id). }
    destruct (Expense_put_id_outcome w uid s id form f fs db d0 Hs Hd0)
      as [[e ->]|(its & items_ & total & (_ & Hacc & _) & Hitems & ->)];
      [done|].
    apply write_described; [done|]. intros l Hl.
    by apply (accepted_items_described its items_ l).
  - rewrite Expense_delete_id_run.
    destruct (ObjectId_cast s) as [id|]; [|done].
    destruct (owned Expense.createdBy db id uid) as [d0|]; [|done]. simpl.
    intros j d Hd. apply (Hdb j).
    by apply lookup_delete_Some in Hd as [_ Hd].
Qed.

(** ** The names of uploaded files *)

Lemma pretty_N_char_dashless (x : N) : pretty_N_char x ≠ "-"%char.
Proof. unfold pretty_N_char. by repeat case_match. Qed.

Lemma pretty_N_go_dashless (x : N) (s : string) :
  dashless s → dashless (pretty_N_go x s).
Proof.
  revert s. induction (N.lt_wf_0 x) as [x _ IH]; intros s Hs.
  assert (x = 0 ∨ 0 < x)%N as [->|Hpos] by lia.
  - by rewrite pretty_N_go_0.
  - rewrite pretty_N_go_step by done. apply IH.
    + by apply N.div_lt.
    + split; [apply pretty_N_char_dashless|done].
Qed.

Lemma pretty_Z_dashless (z : Z) : 0 ≤ z → dashless (pretty z).
Proof.
  intros Hz. destruct z as [|p|p]; [by split| |lia].
  unfold pretty, pretty_Z, pretty, pretty_positive, pretty, pretty_N.
  case_decide; [by split|]. by apply pretty_N_go_dashless.
Qed.

Lemma dashless_split (a b n1 n2 : string) :
  dashless a → dashless b →
  a +:+ "-" +:+ n1 = b +:+ "-" +:+ n2 → a = b ∧ n1 = n2.
Proof.
  revert b. induction a as [|c a IH]; intros [|c' b] Ha Hb Heq; simpl in *.
  - by injection Heq.
  - injection Heq as <- _. by destruct Hb.
  - injection Heq as -> _. by destruct Ha.
  - injection Heq as -> Heq.
    destruct (IH b) as [-> ->]; [by destruct Ha|by destruct Hb|done|done].
Qed.

(** X13. The names the upload storage gives to two files are the same
    exactly when the two uploads happen at the same clock value and carry
    the same original name: files uploaded at different milliseconds, or
    under different names, never overwrite one another. *)
Theorem upload_filename_collides_only_on_same_time_and_name
    (w1 w2 : Ambient) (name1 name2 : string) :
  0 ≤ Date_now w1 → 0 ≤ Date_now w2 →
  Upload.filename w1 name1 = Upload.filename w2 name2
  ↔ Date_now w1 = Date_now w2 ∧ name1 = name2.
Proof.
  intros H1 H2. unfold Upload.filename. split.
  - intros [Ht ->]%dashless_split; [|by apply pretty_Z_dashless..].
    split; [|done]. by apply (inj pretty).
  - by intros [-> ->].
Qed.

(** ** The further statements at sample inputs *)

Lemma Example_second_id : ObjectId_cast Example.second = Some 2%N.
Proof. reflexivity. Qed.

Lemma registration_keeps_usernames_unique_witness :
  unique_usernames
    (AuthRouter.post_create_first_user Example.morning
       (Example.credentials "bob" "builder") Example.users).2.
Proof.
  apply registration_keeps_usernames_unique.
  unfold Example.users.
  intros i j ui uj [-> _]%lookup_singleton_Some [-> _]%lookup_singleton_Some.
  done.
Defined.

Lemma change_password_handler_frame_witness :
  AuthRouter.post_change_password Example.morning
    (authenticated_request 1%N tt
       {| AuthRouter.currentPassword := "rabbit";
          AuthRouter.newPassword := "looking-glass" |} None None)
    Example.users
  = (res_status_json 401 (Message "Current password is incorrect"),
     Example.users).
Proof.
  destruct (change_password_handler_frame Example.morning
              (authenticated_request 1%N tt
                 {| AuthRouter.currentPassword := "rabbit";
                    AuthRouter.newPassword := "looking-glass" |} None None)
              1%N Example.users eq_refl) as (_ & Hwrong & _ & _).
  apply (Hwrong Example.alice); [apply lookup_singleton_eq|reflexivity].
Defined.

Lemma income_create_validation_witness :
  (∃ errors,
     errors ≠ []
     ∧ IncomeRouter.post Example.noon
         (authenticated_request 8%N tt (Example.income_form "five")
            (Some Example.new_slip) None) Example.incomes
       = (res_status_json 400
            (Message (error_message (ValidationError "Income" errors))),
          Example.incomes))
  ∧ (∃ id d,
       Example.incomes !! id = None
       ∧ IncomeRouter.post Example.noon
           (authenticated_request 8%N tt (Example.income_form "5")
              (Some Example.new_slip) None) Example.incomes
         = (res_status_json 201 (Document (id, d)),
            <[id := d]> Example.incomes)
       ∧ Income.amount d = Example.decimal 5 0
       ∧ Income.notes d = Some "new"
       ∧ Income.createdBy d = 8%N
       ∧ Income.createdAt d = 1700000014400
       ∧ Income.updatedAt d = 1700000014400
       ∧ Income.slip d = Some Example.new_slip).
Proof.
  refine (income_create_validation Example.noon 8%N
            (Example.income_form "five") (Example.income_form "5")
            (Example.decimal 5 0) (Some Example.new_slip) None
            Example.incomes _ _).
  - intros a'. discriminate.
  - reflexivity.
Defined.

Lemma read_after_write_returns_written_witness :
  let created : Income.t :=
    {| Income.amount := Example.decimal 5 0; Income.slip := None;
       Income.notes := Some "new"; Income.createdBy := 7%N;
       Income.createdAt := 1700000014400;
       Income.updatedAt := 1700000014400 |} in
  let incomes' := <[2%N := created]> Example.incomes in
  IncomeRouter.get_id (authenticated_request 7%N Example.second tt None None)
    incomes'
  = (res_json (Document (2%N, created)), incomes')
  ∧ IncomeRouter.get_id
      (authenticated_request 8%N Example.second tt None None) incomes'
    = (res_status_json 404 (Message "Income record not found"), incomes').
Proof.
  intros created incomes'.
  destruct (read_after_write_returns_written Example.noon 7%N 8%N
              Example.first
              (Example.income_form "5") Example.coffee None None
              Example.incomes Example.expenses) as [Hincome _]; [done|].
  apply (Hincome 201 (2%N, created) incomes' Example.second);
    [left|]; reflexivity.
Defined.

Lemma delete_removes_once_witness :
  IncomeRouter.delete_id
    (authenticated_request 7%N Example.first tt None None) Example.incomes
  = (res_json (Message "Income record deleted successfully"),
     delete 1%N Example.incomes)
  ∧ IncomeRouter.delete_id
      (authenticated_request 7%N Example.first tt None None)
      (delete 1%N Example.incomes)
    = (res_status_json 404 (Message "Income record not found"),
       delete 1%N Example.incomes)
  ∧ ExpenseRouter.get_id
      (authenticated_request 7%N Example.first tt None None)
      (delete 1%N Example.expenses)
    = (res_status_json 404 (Message "Expense not found"),
       delete 1%N Example.expenses).
Proof.
  destruct (delete_removes_once 7%N 1%N Example.first
              Example.incomes Example.expenses
              Example.salary Example.lunch)
    as [(Hdelete & _ & _ & Hagain) (_ & _ & Hread & _)];
    [reflexivity|apply lookup_singleton_eq|done|apply lookup_singleton_eq
    |done|].
  by split_and!.
Defined.

Lemma update_keeps_records_and_images_witness :
  ∃ d',
    (ExpenseRouter.put_id Example.noon
       (authenticated_request 7%N Example.first Example.coffee None
          (Some [Example.photo])) Example.expenses).2 !! 1%N = Some d'
    ∧ Expense.createdBy d' = 7%N
    ∧ [Example.receipt] `prefix_of` Expense.images d'.
Proof.
  destruct (update_keeps_records_and_images Example.noon 7%N Example.first
              (Example.income_form "5") Example.coffee None
              (Some [Example.photo]) Example.incomes Example.expenses)
    as [_ [_ Hkept]].
  destruct (Hkept 1%N Example.lunch) as (d' & Hd' & Hby & _ & Himages);
    [apply lookup_singleton_eq|].
  by exists d'.
Defined.

Lemma listing_follows_create_and_delete_witness :
  let created : Income.t :=
    {| Income.amount := Example.decimal 5 0; Income.slip := None;
       Income.notes := Some "new"; Income.createdBy := 7%N;
       Income.createdAt := 1700000014400;
       Income.updatedAt := 1700000014400 |} in
  (∃ l, IncomeRouter.get_all (authenticated_request 7%N tt tt None None)
          (<[2%N := created]> Example.incomes)
        = (res_json (Documents l), <[2%N := created]> Example.incomes)
        ∧ (2%N, created) ∈ l)
  ∧ (∃ l, IncomeRouter.get_all (authenticated_request 7%N tt tt None None)
            (IncomeRouter.delete_id
               (authenticated_request 7%N Example.first tt None None)
               Example.incomes).2
          = (res_json (Documents l),
             (IncomeRouter.delete_id
                (authenticated_request 7%N Example.first tt None None)
                Example.incomes).2)
          ∧ (1%N, Example.salary) ∉ l).
Proof.
  intros created.
  destruct (listing_follows_create_and_delete Example.noon 7%N 1%N
              Example.first
              (Example.income_form "5") Example.coffee None None
              Example.incomes Example.expenses)
    as [[Hlisted Hdeleted] _].
  split.
  - apply (Hlisted 201 (2%N, created)). reflexivity.
  - destruct (Hdeleted Example_first_id) as (l & Hl & Hnone).
    exists l. split; [exact Hl|apply Hnone].
Defined.

Lemma stored_items_stay_described_witness :
  ∃ d,
    (ExpenseRouter.post Example.noon
       (authenticated_request 8%N tt Example.coffee None None)
       Example.expenses).2 !! 2%N = Some d
    ∧ described d.
Proof.
  eexists. split; [reflexivity|].
  refine (proj1 (stored_items_stay_described Example.noon 8%N Example.first
                   Example.coffee None None Example.expenses _) 2%N _ _);
    [|reflexivity].
  unfold Example.expenses. intros j d [_ <-]%lookup_singleton_Some.
  intros its [= <-]. repeat constructor. by intros it [= <-].
Defined.

Lemma upload_filename_collides_only_on_same_time_and_name_witness :
  Upload.filename Example.morning "slip.png"
  = Upload.filename Example.noon "slip.png"
  ↔ Date_now Example.morning = Date_now Example.noon
    ∧ "slip.png" = "slip.png".
Proof.
  apply upload_filename_collides_only_on_same_time_and_name; done.
Defined.
